(** * monday-bi-agent: the normalization pipeline and the query engine of app.py

    A shallow embedding of [fetch_and_clean] and [run_bi_agent] (src/app.py)
    and of the Python, [re] and pandas primitives they call, followed by the
    properties of the design document that the code does or does not meet.

    Conventions of the embedding.
    - Text is a [string] whose characters are the code points 0..255; the
      classes [\s], [\w], [\d] and [str.lower] are Python's on that range.
    - A float is kept as the exact rational value of its numeral ([Qc]).
      pandas stores a binary64 close to it: the same number for every
      integer below 2^53 and for numerals such as 1200.50, and the same side
      of 10^12 but for numerals that round onto it.
    - Exceptions are the instances of Python's [Exception]; the two
      [try]/[except Exception] blocks are the only handlers of the source. *)

From stdpp Require Import base option list strings gmap numbers.
From Stdlib Require Import Ascii String QArith Qcanon Lia.

Open Scope string_scope.

(** ** Python characters and strings *)

Module Py.

Definition code (c : ascii) : N := N_of_ascii c.

Definition between (lo hi : N) (c : ascii) : bool :=
  (lo <=? code c)%N && (code c <=? hi)%N.

(** [str.isspace], which is also the class [\s] of [re] on [str]. *)
Definition is_space (c : ascii) : bool :=
  between 9 13 c || between 28 32 c || (code c =? 133)%N || (code c =? 160)%N.

(** The class [\d] of [re]. *)
Definition is_digit (c : ascii) : bool := between 48 57 c.

(** The class [\w] of [re]: alphanumeric characters and the underscore. *)
Definition is_word (c : ascii) : bool :=
  is_digit c || between 65 90 c || (code c =? 95)%N || between 97 122 c
  || (code c =? 170)%N || between 178 179 c || (code c =? 181)%N
  || between 185 186 c || between 188 190 c || between 192 214 c
  || between 216 246 c || between 248 255 c.

(** [str.lower] on one character. *)
Definition lower_char (c : ascii) : ascii :=
  if between 65 90 c || between 192 214 c || between 216 222 c
  then ascii_of_N (code c + 32) else c.

Fixpoint smap (f : ascii -> ascii) (s : string) : string :=
  match s with
  | EmptyString => EmptyString
  | String c s' => String (f c) (smap f s')
  end.

Fixpoint sfilter (p : ascii -> bool) (s : string) : string :=
  match s with
  | EmptyString => EmptyString
  | String c s' => if p c then String c (sfilter p s') else sfilter p s'
  end.

Fixpoint sall (p : ascii -> bool) (s : string) : bool :=
  match s with
  | EmptyString => true
  | String c s' => p c && sall p s'
  end.

Definition lower (s : string) : string := smap lower_char s.

Fixpoint lstrip (s : string) : string :=
  match s with
  | EmptyString => EmptyString
  | String c s' => if is_space c then lstrip s' else s
  end.

Fixpoint rstrip (s : string) : string :=
  match s with
  | EmptyString => EmptyString
  | String c s' =>
      match rstrip s' with
      | EmptyString => if is_space c then EmptyString else String c EmptyString
      | r => String c r
      end
  end.

(** [str.strip()] *)
Definition strip (s : string) : string := rstrip (lstrip s).

Fixpoint startswith (p s : string) : bool :=
  match p, s with
  | EmptyString, _ => true
  | String _ _, EmptyString => false
  | String a p', String b s' => Ascii.eqb a b && startswith p' s'
  end.

(** [s[n:]] *)
Fixpoint drop (n : nat) (s : string) : string :=
  match n, s with
  | O, _ => s
  | S _, EmptyString => EmptyString
  | S n', String _ s' => drop n' s'
  end.

(** [k in s] for two strings. *)
Fixpoint contains (k s : string) : bool :=
  startswith k s ||
  match s with
  | EmptyString => false
  | String _ s' => contains k s'
  end.

(** [any(k in s for k in ks)] *)
Definition any_in (ks : list string) (s : string) : bool :=
  existsb (fun k => contains k s) ks.

End Py.

(** ** The two substitutions of [fetch_and_clean] *)

Module Re.

(** The class [[\w\s]]. *)
Definition kept (c : ascii) : bool := Py.is_word c || Py.is_space c.

(** [re.sub(r'[^\w\s]', ' ', col)] *)
Definition sub_non_word (col : string) : string :=
  Py.smap (fun c => if kept c then c else " "%char) col.

(** [re.sub(r'[^\d.]', '', s)], the body of [.str.replace(..., regex=True)] *)
Definition sub_non_digit (s : string) : string :=
  Py.sfilter (fun c => Py.is_digit c || Ascii.eqb c "."%char) s.

Definition newline : ascii := "010"%char.

(** [$] under [re.MULTILINE]: the end of the text or of a line. *)
Definition at_eol (s : string) : bool :=
  match s with
  | EmptyString => true
  | String c _ => Ascii.eqb c newline
  end.

Definition fence : string := "```".
Definition fence_python : string := "```python".

(** The scan of [re.sub(r'^```python\s*|```$', '', s, flags=re.MULTILINE)],
    one character at a time. [bol] says that the position is at the start
    of a line, [skip] counts the characters of a matched marker still to
    drop, and [ws] says that the [\s*] which ends the first alternative is
    still reading. Both alternatives match three characters or more, so no
    match is empty, and the first one is tried first. *)
Fixpoint sub_fence_from (bol : bool) (skip : nat) (ws : bool) (s : string) : string :=
  match s with
  | EmptyString => EmptyString
  | String c s' =>
      match skip with
      | S k => sub_fence_from false k ws s'
      | O =>
          if ws && Py.is_space c then sub_fence_from (Ascii.eqb c newline) 0 true s'
          else if bol && Py.startswith fence_python s then sub_fence_from false 8 true s'
          else if Py.startswith fence s && at_eol (Py.drop 3 s)
               then sub_fence_from false 2 false s'
          else String c (sub_fence_from (Ascii.eqb c newline) 0 false s')
      end
  end.

Definition sub_fence (s : string) : string := sub_fence_from true 0 false s.

End Re.

(** Line 80: the new header of one column. *)
Definition sanitize (col : string) : string := Py.strip (Re.sub_non_word col).

Definition money_keywords : list string :=
  ["value"; "amount"; "revenue"; "budget"; "cost"; "price"].

Definition exclude_keywords : list string :=
  ["status"; "stage"; "date"; "id"; "code"; "name"; "probability"; "sector"].

Definition is_money_col (col_lower : string) : bool := Py.any_in money_keywords col_lower.
Definition is_excluded (col_lower : string) : bool := Py.any_in exclude_keywords col_lower.

(** Lines 87-91: the guard of the coercion, on a header of the table. *)
Definition is_numeric (col : string) : bool :=
  let col_lower := Py.lower col in
  is_money_col col_lower && negb (is_excluded col_lower).


(** ** Exceptions and the error monad *)

(** An instance of [Exception]: its class and [str(e)]. *)
Record exn := Exn { exn_class : string; exn_str : string }.

Inductive result (A : Type) : Type :=
| Ok (a : A)
| Raise (e : exn).
Arguments Ok {A} a.
Arguments Raise {A} e.

Definition bind {A B : Type} (m : result A) (k : A -> result B) : result B :=
  match m with
  | Ok a => k a
  | Raise e => Raise e
  end.

Notation "'let*' x := m 'in' k" := (bind m (fun x => k))
  (at level 10, x name, m at level 100, k at level 200).

Fixpoint foldM {A B : Type} (f : A -> B -> result A) (a : A) (l : list B) : result A :=
  match l with
  | [] => Ok a
  | b :: l' => let* a' := f a b in foldM f a' l'
  end.

Fixpoint mapM {A B : Type} (f : A -> result B) (l : list A) : result (list B) :=
  match l with
  | [] => Ok []
  | a :: l' => let* b := f a in let* bs := mapM f l' in Ok (b :: bs)
  end.

Definition KeyError (k : string) : exn := Exn "KeyError" ("'" +:+ k +:+ "'").
Definition IndexError : exn := Exn "IndexError" "list index out of range".
Definition AttributeError (msg : string) : exn := Exn "AttributeError" msg.
Definition TypeError (msg : string) : exn := Exn "TypeError" msg.
Definition ValueError (msg : string) : exn := Exn "ValueError" msg.

(** [l[0]] on a list. *)
Definition first {A : Type} (l : list A) : result A :=
  match l with
  | [] => Raise IndexError
  | a :: _ => Ok a
  end.

(** ** Insertion-ordered dictionaries with [str] keys

    [col_map] and [row_data] are iterated, so the order of their keys is
    kept; [item_vals] is only read with [.get] and is a [gmap]. *)

Module Dict.

Definition t (V : Type) : Type := list (string * V).

(** [d[k] = v]: an existing key keeps its place. *)
Fixpoint set {V : Type} (k : string) (v : V) (d : t V) : t V :=
  match d with
  | [] => [(k, v)]
  | (k', v') :: d' =>
      if String.eqb k' k then (k', v) :: d' else (k', v') :: set k v d'
  end.

Fixpoint get {V : Type} (k : string) (d : t V) : option V :=
  match d with
  | [] => None
  | (k', v') :: d' => if String.eqb k' k then Some v' else get k d'
  end.

Definition keys {V : Type} (d : t V) : list string := map fst d.

End Dict.

(** ** The upstream response

    The shape fixed by the GraphQL query of lines 44-56. [text] is nullable;
    a key that is absent from the top-level object is [None]. *)

Record Column := { c_id : string; c_title : string }.
Record ColumnValue := { v_id : string; v_text : option string }.
Record Item := { i_name : string; i_column_values : list ColumnValue }.
Record Board := { b_columns : list Column; b_items : list Item }.

Record Payload := {
  p_errors : option (list string);   (* data['errors'], the message of each error *)
  p_data : option (list Board)       (* data['data']['boards'] *)
}.

(** What [requests.post] returns: [response.json()] may raise. *)
Record Response := { json : result Payload }.

(** ** pandas *)

(** The objects a cell holds. *)
Inductive value :=
| VNone
| VStr (s : string)
| VFloat (x : Qc)
| VNaN.

Definition in_keys (k : string) (ks : list string) : bool :=
  existsb (String.eqb k) ks.

Definition eq_label (a b : string) : bool := String.eqb a b.

Module pd.

(** A frame over a [RangeIndex]: [index] rows, and the columns in order,
    each with its label; labels may repeat. *)
Record DataFrame := { index : nat; frame : list (string * list value) }.

(** [pd.DataFrame()] *)
Definition empty : DataFrame := {| index := 0; frame := [] |}.

Definition columns (df : DataFrame) : list string := map fst (frame df).

(** [len(df)] *)
Definition len (df : DataFrame) : nat := index df.

(** The keys of the records in order of first appearance. *)
Definition union_keys (rows : list (Dict.t value)) : list string :=
  fold_left
    (fun acc r => (acc ++ List.filter (fun k => negb (in_keys k acc)) (Dict.keys r))%list)
    rows [].

(** [pd.DataFrame(rows)] for a list of dicts; a key a record lacks is NaN. *)
Definition from_records (rows : list (Dict.t value)) : DataFrame :=
  {| index := List.length rows;
     frame := map (fun c => (c, map (fun r => default VNaN (Dict.get c r)) rows))
                  (union_keys rows) |}.

(** [df.columns = labels] *)
Definition set_columns (df : DataFrame) (labels : list string) : result DataFrame :=
  if Nat.eqb (List.length labels) (List.length (frame df))
  then Ok {| index := index df;
             frame := map (fun p => (fst p, snd (snd p))) (combine labels (frame df)) |}
  else Raise (ValueError "Length mismatch").

(** [df[col]] is a Series when one column has the label, a DataFrame when
    several have it. *)
Inductive Selection :=
  | Series (s : list value)
  | Frame (cols : list (list value)).

Definition getitem (df : DataFrame) (col : string) : result Selection :=
  match List.filter (fun p => eq_label (fst p) col) (frame df) with
  | [] => Raise (KeyError col)
  | [p] => Ok (Series (snd p))
  | ps => Ok (Frame (map snd ps))
  end.

(** [df[col] = s] for a label the frame has. *)
Definition setitem (df : DataFrame) (col : string) (s : list value) : DataFrame :=
  {| index := index df;
     frame := map (fun p => if eq_label (fst p) col then (fst p, s) else p) (frame df) |}.

(** [df.loc[mask, col] = v] *)
Definition loc_set (df : DataFrame) (mask : list bool) (col : string) (v : value)
  : DataFrame :=
  {| index := index df;
     frame := map (fun p => if eq_label (fst p) col
                            then (fst p, map (fun bx : bool * value =>
                                                if fst bx then v else snd bx)
                                             (combine mask (snd p)))
                            else p) (frame df) |}.

(** The cell of row [i] in the [j]-th column. *)
Definition cell (df : DataFrame) (i j : nat) : option value :=
  match nth_error (frame df) j with
  | Some p => nth_error (snd p) i
  | None => None
  end.

End pd.

(** *** Numerals *)

Definition digit_value (c : ascii) : N := (Py.code c - 48)%N.

Fixpoint digits_value (acc : N) (s : string) : N :=
  match s with
  | EmptyString => acc
  | String c s' => digits_value (10 * acc + digit_value c) s'
  end.

Fixpoint span_digits (s : string) : string * string :=
  match s with
  | EmptyString => (EmptyString, EmptyString)
  | String c s' =>
      if Py.is_digit c
      then let r := span_digits s' in (String c (fst r), snd r)
      else (EmptyString, s)
  end.

(** The number [n / 10^k]. *)
Definition decimal (n : N) (k : nat) : Qc :=
  Q2Qc (Z.of_N n # Z.to_pos (10 ^ Z.of_nat k)).

Definition is_empty (s : string) : bool :=
  match s with EmptyString => true | _ => false end.

(** The float an unsigned numeral [digits[.digits]] denotes; at least one
    digit is needed. After line 92 a cell holds digits and points only, so
    signs, exponents and blanks, which [pd.to_numeric] also reads, are not
    part of this grammar. [None] is a failed parse. *)
Definition parse_float (s : string) : option Qc :=
  let r := span_digits s in
  match snd r with
  | EmptyString =>
      if is_empty (fst r) then None else Some (decimal (digits_value 0 (fst r)) 0)
  | String c fp =>
      if Ascii.eqb c "."%char && Py.sall Py.is_digit fp
         && negb (is_empty (fst r) && is_empty fp)
      then Some (decimal (digits_value 0 (fst r +:+ fp)) (String.length fp))
      else None
  end.

(** [1_000_000_000_000] *)
Definition ceiling : Qc := Qc_of_Z 1000000000000.

Section Model.

(** [repr] of a float, for [astype(str)] on a float cell. *)
Variable float_repr : Qc -> string.

(** [str(v)] *)
Definition py_str (v : value) : string :=
  match v with
  | VNone => "None"
  | VStr s => s
  | VFloat x => float_repr x
  | VNaN => "nan"
  end.

(** [.astype(str)] *)
Definition astype_str (sel : pd.Selection) : pd.Selection :=
  let f := map (fun v => VStr (py_str v)) in
  match sel with
  | pd.Series s => pd.Series (f s)
  | pd.Frame cs => pd.Frame (map f cs)
  end.

(** [.str.replace(r'[^\d.]', '', regex=True)]: only a Series has [.str]. *)
Definition str_replace_non_digit (sel : pd.Selection) : result (list value) :=
  match sel with
  | pd.Series s =>
      Ok (map (fun v => match v with
                        | VStr t => VStr (Re.sub_non_digit t)
                        | _ => VNaN
                        end) s)
  | pd.Frame _ => Raise (AttributeError "'DataFrame' object has no attribute 'str'")
  end.

(** [pd.to_numeric(_, errors='coerce')] *)
Definition to_numeric (sel : pd.Selection) : result (list value) :=
  match sel with
  | pd.Series s =>
      Ok (map (fun v => match v with
                        | VStr t => match parse_float t with
                                    | Some x => VFloat x
                                    | None => VNaN
                                    end
                        | VFloat x => VFloat x
                        | _ => VNaN
                        end) s)
  | pd.Frame _ => Raise (TypeError "arg must be a list, tuple, 1-d array, or Series")
  end.

(** [.fillna(0)] *)
Definition fillna0 (s : list value) : list value :=
  map (fun v => match v with
                | VNaN | VNone => VFloat 0
                | _ => v
                end) s.

(** [sel > 1_000_000_000_000] *)
Definition gt_ceiling (sel : pd.Selection) : result (list bool) :=
  match sel with
  | pd.Series s =>
      mapM (fun v => match v with
                     | VFloat x => Ok (bool_decide (ceiling < x)%Qc)
                     | VNaN => Ok false
                     | _ => Raise (TypeError "'>' not supported between instances of 'str' and 'int'")
                     end) s
  | pd.Frame _ => Raise (ValueError "cannot index with a boolean frame")
  end.

(** Lines 92-94 for one header. *)
Definition coerce_column (df : pd.DataFrame) (col : string) : result pd.DataFrame :=
  let* sel := pd.getitem df col in
  let* s := str_replace_non_digit (astype_str sel) in
  let df := pd.setitem df col s in
  let* sel := pd.getitem df col in
  let* s := to_numeric sel in
  let df := pd.setitem df col (fillna0 s) in
  let* sel := pd.getitem df col in
  let* mask := gt_ceiling sel in
  Ok (pd.loc_set df mask col (VFloat 0)).

(** Lines 87-94: the body of the loop. *)
Definition step (df : pd.DataFrame) (col : string) : result pd.DataFrame :=
  if is_numeric col then coerce_column df col else Ok df.

(** Lines 86-94: the loop over the headers the frame has when it starts. *)
Definition convert_types (df : pd.DataFrame) : result pd.DataFrame :=
  foldM step df (pd.columns df).

(** Line 67, the filter of the comprehension: the descriptors kept. *)
Definition descriptors (board_data : Board) : list Column :=
  List.filter (fun c => negb (String.eqb (Py.lower (c_title c)) "name"))
              (b_columns board_data).

(** Line 67 *)
Definition col_map (board_data : Board) : Dict.t string :=
  fold_left (fun m c => Dict.set (c_id c) (c_title c) m) (descriptors board_data) [].

Definition text_value (t : option string) : value :=
  match t with
  | Some s => VStr s
  | None => VNone
  end.

(** Line 72 *)
Definition item_vals (item : Item) : gmap string value :=
  fold_left (fun m val => <[v_id val := text_value (v_text val)]> m)
    (i_column_values item) ∅.

(** Lines 71-74 *)
Definition row_data (cm : Dict.t string) (item : Item) : Dict.t value :=
  fold_left (fun row kv => Dict.set (snd kv) (default (VStr "") (item_vals item !! fst kv)) row)
    cm [("Item Name", VStr (i_name item))].

(** Lines 69-75 *)
Definition parsed_rows (board_data : Board) : list (Dict.t value) :=
  map (row_data (col_map board_data)) (b_items board_data).

(** Lines 66-77: the flattener. *)
Definition flatten (board_data : Board) : pd.DataFrame :=
  pd.from_records (parsed_rows board_data).

(** Lines 79-96 *)
Definition clean (df : pd.DataFrame) : result pd.DataFrame :=
  let* df := pd.set_columns df (map sanitize (pd.columns df)) in
  convert_types df.

(** Lines 44-56 *)
Definition query (board_id : string) : string :=
  "query { boards (ids: [" +:+ board_id +:+
  "]) { columns { id title } items_page (limit: 500) { items { name column_values { id text } } } } }".

(** [requests.post(url, json={'query': query}, headers=headers, timeout=30)] *)
Variable requests_post : string -> result Response.

(** The [try] block, lines 59-96: the frame returned and the texts passed
    to [st.error]. *)
Definition fetch_try (board_id : string) : result (pd.DataFrame * list string) :=
  let* response := requests_post (query board_id) in
  let* data := json response in
  match p_errors data with
  | Some errors =>
      let* message := first errors in
      Ok (pd.empty, ["Monday API Error: " +:+ message])
  | None =>
      let* boards := match p_data data with
                | Some bs => Ok bs
                | None => Raise (KeyError "data")
                end in
      let* board_data := first boards in
      let* df := clean (flatten board_data) in
      Ok (df, [])
  end.

(** Lines 36-99. The cache of line 35 replays a call it has seen and is
    not part of the function. *)
Definition fetch_and_clean (board_id : string) : pd.DataFrame * list string :=
  match fetch_try board_id with
  | Ok r => r
  | Raise e => (pd.empty, ["Fetch Error: " +:+ exn_str e])
  end.

End Model.

(** ** The query engine *)

(** The objects of the namespace of the snippet. *)
Inductive pyobj :=
| PStr (s : string)
| PFrame (df : pd.DataFrame)
| PModule (name : string)
| PObject (text : string).

(** What the two f-strings of [run_bi_agent] are built from. *)
Inductive prompt :=
| CodePrompt (question : string) (deals_rows : nat) (deals_cols : list string)
             (wo_rows : nat) (wo_cols : list string)
| SummaryPrompt (question : string) (raw_val : string).

Definition no_result : string := "No result returned".
Definition agent_error_prefix : string := "⚠️ Agent Logic Error: ".

(** Lines 125-126 *)
Definition raw_code (content : string) : string := Py.strip content.
Definition clean_code (content : string) : string :=
  Py.strip (Re.sub_fence (raw_code content)).

Section Agent.

(** [client.chat.completions.create(model=..., messages=[user prompt],
    temperature=t).choices[0].message.content] *)
Variable chat_create : prompt -> option nat -> result string.

(** [exec(code, {}, local_vars)]: the namespace after the snippet ran. *)
Variable exec : string -> gmap string pyobj -> result (gmap string pyobj).

(** [str] of an object that is not a [str]. *)
Variable obj_str : pyobj -> string.

(** [f"{raw_val}"] *)
Definition format_value (o : pyobj) : string :=
  match o with
  | PStr s => s
  | _ => obj_str o
  end.

(** Lines 103-117: what the first prompt holds. *)
Definition code_prompt (question : string) (deals_df wo_df : pd.DataFrame) : prompt :=
  let deals_cols := pd.columns deals_df in
  let wo_cols := pd.columns wo_df in
  CodePrompt question (pd.len deals_df) deals_cols (pd.len wo_df) wo_cols.

(** Line 131 *)
Definition local_vars (deals_df wo_df : pd.DataFrame) : gmap string pyobj :=
  <["deals_df" := PFrame deals_df]>
    (<["wo_df" := PFrame wo_df]> (<["pd" := PModule "pandas"]> ∅)).

(** Line 133 *)
Definition raw_val (local_vars : gmap string pyobj) : pyobj :=
  default (PStr no_result) (local_vars !! "result").

(** The [try] block, lines 120-144; the expander that shows the snippet
    belongs to the front end. *)
Definition agent_try (question : string) (deals_df wo_df : pd.DataFrame) : result string :=
  let* content := chat_create (code_prompt question deals_df wo_df) (Some 0%nat) in
  let clean_code := clean_code content in
  let* local_vars := exec clean_code (local_vars deals_df wo_df) in
  let summary_prompt := SummaryPrompt question (format_value (raw_val local_vars)) in
  chat_create summary_prompt None.

(** Lines 102-146 *)
Definition run_bi_agent (question : string) (deals_df wo_df : pd.DataFrame) : string :=
  match agent_try question deals_df wo_df with
  | Ok explanation => explanation
  | Raise e => agent_error_prefix +:+ exn_str e
  end.

End Agent.

(** ** The coercion, cell by cell

    Section 4.2 of the design document in its own words: strip what is not a
    digit or a point, parse, 0 when the parse fails, 0 above the ceiling. *)
Definition stored_float (text : string) : Qc :=
  match parse_float (Re.sub_non_digit text) with
  | None => 0%Qc
  | Some x => if bool_decide (ceiling < x)%Qc then 0%Qc else x
  end.

Definition coerce_series (float_repr : Qc -> string) (s : list value) : list value :=
  map (fun v => VFloat (stored_float (py_str float_repr v))) s.

(** ** The vocabulary of the statements *)

(** [k] occurs in [s]. *)
Definition occurs (k s : string) : Prop :=
  exists pre suf, s = pre +:+ k +:+ suf.

(** A text that is empty or starts with a character that is not blank. *)
Definition no_lead (s : string) : Prop :=
  match s with
  | EmptyString => True
  | String c _ => Py.is_space c = false
  end.

(** A lower-case letter of a keyword. *)
Definition is_letter (c : ascii) : bool := Py.between 97 122 c.


(** The text of a cell after line 92 and its number after line 93. *)
Definition stripped (float_repr : Qc -> string) (v : value) : string :=
  Re.sub_non_digit (py_str float_repr v).

Definition parsed (float_repr : Qc -> string) (v : value) : Qc :=
  default 0%Qc (parse_float (stripped float_repr v)).

(** How many times a header occurs. *)
Definition count_label (c : string) (ks : list string) : nat :=
  List.length (List.filter (fun k => eq_label k c) ks).

(** The keys of a row depend on [col_map] only. *)
Definition row_keys (cm : Dict.t string) : list string :=
  fold_left (fun ks kv => if in_keys (snd kv) ks then ks else (ks ++ [snd kv])%list)
            cm ["Item Name"].

(** The upstream answered with the boards [b :: rest] and no error list. *)
Definition answers (requests_post : string -> result Response) (board_id : string)
    (b : Board) : Prop :=
  exists rest response,
    requests_post (query board_id) = Ok response /\
    json response = Ok {| p_errors := None; p_data := Some (b :: rest) |}.

(** The text of one line feed. *)
Definition nl : string := String Re.newline EmptyString.

Definition not_backtick (c : ascii) : bool := negb (Ascii.eqb c "`"%char).

(** A text with no backtick in it. *)
Definition plain (s : string) : Prop := Py.sall not_backtick s = true.

(** ** Sample data *)

Definition sample_board : Board :=
  {| b_columns := [ {| c_id := "name"; c_title := "Name" |};
                    {| c_id := "v"; c_title := "Deal Value ($)" |};
                    {| c_id := "s"; c_title := "Stage" |};
                    {| c_id := "p"; c_title := "Probability" |} ];
     b_items := [ {| i_name := "Alpha";
                     i_column_values := [ {| v_id := "v"; v_text := Some "$1,200.50" |};
                                          {| v_id := "s"; v_text := Some "Won" |} ] |};
                  {| i_name := "Beta";
                     i_column_values := [ {| v_id := "v"; v_text := Some "5551234567890" |};
                                          {| v_id := "p"; v_text := None |} ] |};
                  {| i_name := "Gamma";
                     i_column_values := [ {| v_id := "v"; v_text := Some "-100" |} ] |} ] |}.

(** Two descriptors that share a title. *)
Definition twin_board : Board :=
  {| b_columns := [ {| c_id := "a"; c_title := "Owner" |};
                    {| c_id := "b"; c_title := "Owner" |} ];
     b_items := [ {| i_name := "Alpha"; i_column_values := [] |} ] |}.

(** A board with descriptors and no item. *)
Definition idle_board : Board :=
  {| b_columns := [ {| c_id := "name"; c_title := "Name" |};
                    {| c_id := "v"; c_title := "Deal Value" |} ];
     b_items := [] |}.

(** A stand-in for [repr] on floats; no statement depends on it. *)
Definition no_repr (x : Qc) : string := "".

(** A world whose upstream answers every query with [sample_board]. *)
Definition sample_post (q : string) : result Response :=
  Ok {| json := Ok {| p_errors := None; p_data := Some [sample_board] |} |}.

(** A world whose upstream answers with [idle_board]. *)
Definition idle_post (q : string) : result Response :=
  Ok {| json := Ok {| p_errors := None; p_data := Some [idle_board] |} |}.

(** A world whose upstream answers with an error list. *)
Definition denied_post (q : string) : result Response :=
  Ok {| json := Ok {| p_errors := Some ["Not Authenticated"]; p_data := None |} |}.

(** A model that answers every first prompt with a snippet and narrates
    the result it is shown. *)
Definition sample_chat (p : prompt) (temperature : option nat) : result string :=
  match p with
  | CodePrompt _ _ _ _ _ => Ok "total = deals_df['Value'].sum()"
  | SummaryPrompt _ raw_val => Ok ("The result is " +:+ raw_val +:+ ".")
  end.

(** A run of the snippet that binds nothing. *)
Definition idle_exec (code : string) (locals : gmap string pyobj) : result (gmap string pyobj) :=
  Ok locals.

(** A stand-in for [str] on objects. *)
Definition opaque_str (o : pyobj) : string := "<object>".


(** ** The vocabulary of the further statements *)

(** Every column has as many cells as the index has rows. *)
Definition rectangular (df : pd.DataFrame) : Prop :=
  Forall (fun p : string * list value => List.length (snd p) = pd.len df) (pd.frame df).

(** The message of the exception line 92 raises on a header two columns share. *)
Definition no_str_accessor : string := "'DataFrame' object has no attribute 'str'".

(** How many points a text holds, and whether it holds a digit. *)
Fixpoint points (s : string) : nat :=
  match s with
  | EmptyString => 0
  | String c s' => (if Ascii.eqb c "."%char then 1 else 0) + points s'
  end.

Fixpoint has_digit (s : string) : bool :=
  match s with
  | EmptyString => false
  | String c s' => Py.is_digit c || has_digit s'
  end.

(** Two titles that sanitize to one numeric header. *)
Definition clash_board : Board :=
  {| b_columns := [ {| c_id := "a"; c_title := "Cost ($)" |};
                    {| c_id := "b"; c_title := "Cost (%)" |} ];
     b_items := [ {| i_name := "Alpha";
                     i_column_values := [ {| v_id := "a"; v_text := Some "10" |} ] |} ] |}.

Definition clash_post (q : string) : result Response :=
  Ok {| json := Ok {| p_errors := None; p_data := Some [clash_board] |} |}.


(** ** Configuration, lines 12-29 *)

(** Lines 12-18: [st.secrets] first, then [os.environ]. Both are read as
    mappings from names to texts: a secrets file is taken to be there (with
    none, Streamlit raises at line 15) and to hold texts. *)
Definition get_secret (secrets environ : gmap string string) (key : string)
    : option string :=
  match secrets !! key with
  | Some v => Some v
  | None => environ !! key
  end.

(** Lines 21-24 *)
Record Config := {
  MONDAY_TOKEN : option string;
  DEALS_BOARD_ID : option string;
  WO_BOARD_ID : option string;
  GROQ_API_KEY : option string
}.

Definition load_config (secrets environ : gmap string string) : Config :=
  {| MONDAY_TOKEN := get_secret secrets environ "MONDAY_TOKEN";
     DEALS_BOARD_ID := get_secret secrets environ "DEALS_BOARD_ID";
     WO_BOARD_ID := get_secret secrets environ "WO_BOARD_ID";
     GROQ_API_KEY := get_secret secrets environ "GROQ_API_KEY" |}.

(** [not x] for [None] or a [str]. *)
Definition py_not (x : option string) : bool :=
  match x with
  | None => true
  | Some s => is_empty s
  end.

(** Line 27 *)
Definition secrets_missing (cfg : Config) : bool :=
  py_not (MONDAY_TOKEN cfg) || py_not (GROQ_API_KEY cfg).

Definition critical_error : string :=
  "🚨 Critical Error: Secrets are missing. Please add MONDAY_TOKEN and GROQ_API_KEY to your configuration.".

(** ** The script, lines 35 and 149-169

    Streamlit runs the script from the top at every interaction. The state
    that outlives a run is [st.session_state] and the cache of line 35; the
    upstream is asked a first, a second, ... time, and what it answers may
    change from one time to the next. Of the page, the status messages are
    kept: [st.error], [st.success], [st.info]. *)

Inductive message :=
| st_error (text : string)
| st_success (text : string)
| st_info (text : string).

(** How a run ends: at its last line, at [st.stop()], or on an exception
    that nothing catches. *)
Inductive outcome :=
| Finished
| Stopped
| Uncaught (e : exn).

(** What the script calls and does not define. [upstream n] answers the
    request that follows [n] earlier ones. *)
Record World := {
  float_repr : Qc -> string;
  upstream : nat -> string -> result Response;
  chat_create : prompt -> option nat -> result string;
  exec : string -> gmap string pyobj -> result (gmap string pyobj);
  obj_str : pyobj -> string
}.

Record App := {
  clock : nat;
  cache : gmap (option string) (pd.DataFrame * list string);
  session_state : gmap string pd.DataFrame
}.

(** What a run reads: the two sources of secrets, the button and the text
    of the input. *)
Record Inputs := {
  secrets : gmap string string;
  environ : gmap string string;
  sync_clicked : bool;
  question : string
}.

(** [% board_id] in line 56, for [None] or a [str]. *)
Definition percent_s (board_id : option string) : string := default "None" board_id.

(** Line 35, [@st.cache_data(ttl=300)]: a call with an argument the cache
    holds returns what it holds, with the reports replayed; another one runs
    the function, which asks the upstream once. The only calls follow the
    clearing of line 154, so an entry expires only if the first fetch of a
    run lasts five minutes; expiry is not modelled. *)
Definition cached_fetch_and_clean (w : World) (a : App) (board_id : option string)
    : (pd.DataFrame * list string) * App :=
  match cache a !! board_id with
  | Some r => (r, a)
  | None =>
      let r := fetch_and_clean (float_repr w) (upstream w (clock a)) (percent_s board_id) in
      (r, {| clock := S (clock a);
             cache := <[board_id := r]> (cache a);
             session_state := session_state a |})
  end.

Definition set_session (key : string) (df : pd.DataFrame) (a : App) : App :=
  {| clock := clock a; cache := cache a;
     session_state := <[key := df]> (session_state a) |}.

(** Lines 154-157 *)
Definition sync (w : World) (cfg : Config) (a : App) : App * list message :=
  let a := {| clock := clock a; cache := ∅; session_state := session_state a |} in
  let '(deals, a) := cached_fetch_and_clean w a (DEALS_BOARD_ID cfg) in
  let a := set_session "deals_df" (fst deals) a in
  let '(wo, a) := cached_fetch_and_clean w a (WO_BOARD_ID cfg) in
  let a := set_session "wo_df" (fst wo) a in
  (a, (map st_error (snd deals) ++ map st_error (snd wo)
       ++ [st_success "Data Synced!"])%list).

(** Lines 159-169 *)
Definition ask (w : World) (i : Inputs) (a : App) : list message * outcome :=
  match session_state a !! "deals_df" with
  | Some deals_df =>
      if is_empty (question i) then ([], Finished)
      else match session_state a !! "wo_df" with
           | Some wo_df =>
               ([st_success (run_bi_agent (chat_create w) (exec w) (obj_str w)
                                          (question i) deals_df wo_df)], Finished)
           | None => ([], Uncaught (Exn "KeyError" "wo_df"))
           end
  | None => ([st_info "👋 Click 'Sync Live Data' to begin."], Finished)
  end.

(** One run of the script, lines 21-29 and 149-169, from its first line to
    its end or to [st.stop()]: a run that Streamlit interrupts half-way is
    not modelled, and the snippet line 132 executes is given the two tables
    only, not [st.session_state]. *)
Definition script (w : World) (i : Inputs) (a : App) : App * list message * outcome :=
  let cfg := load_config (secrets i) (environ i) in
  if secrets_missing cfg then (a, [st_error critical_error], Stopped)
  else
    let '(a, synced) := if sync_clicked i then sync w cfg a else (a, []) in
    let '(asked, end_) := ask w i a in
    (a, (synced ++ asked)%list, end_).

(** The runs of a session, one after the other. *)
Fixpoint session (w : World) (runs : list Inputs) (a : App) : App * list outcome :=
  match runs with
  | [] => (a, [])
  | i :: runs' =>
      let '(a', _, o) := script w i a in
      let '(a'', os) := session w runs' a' in
      (a'', o :: os)
  end.

(** A session state holds the work orders whenever it holds the deals. *)
Definition paired (a : App) : Prop :=
  is_Some (session_state a !! "deals_df") -> is_Some (session_state a !! "wo_df").

(** An app that was never synced. *)
Definition fresh_app : App := {| clock := 0; cache := ∅; session_state := ∅ |}.

Definition sample_world : World :=
  {| float_repr := no_repr;
     upstream := fun _ => sample_post;
     chat_create := sample_chat;
     exec := idle_exec;
     obj_str := opaque_str |}.

Definition sample_secrets : gmap string string :=
  <["MONDAY_TOKEN" := "token"]> (<["GROQ_API_KEY" := "key"]> (<["DEALS_BOARD_ID" := "1"]> ∅)).

Definition sync_click : Inputs :=
  {| secrets := sample_secrets; environ := ∅; sync_clicked := true; question := "" |}.

(** * Properties *)

(** ** Strings *)

Section StringLemmas.

Lemma sall_smap (p : ascii -> bool) (f : ascii -> ascii) (s : string) :
  (forall c, p (f c) = true) -> Py.sall p (Py.smap f s) = true.
Proof.
  intros Hf. induction s as [|c s IH]; simpl; [reflexivity|].
  now rewrite Hf, IH.
Qed.

Lemma smap_fixed (p : ascii -> bool) (f : ascii -> ascii) (s : string) :
  (forall c, p c = true -> f c = c) -> Py.sall p s = true -> Py.smap f s = s.
Proof.
  intros Hf. induction s as [|c s IH]; simpl; [reflexivity|].
  intros [Hc Hs]%andb_prop. now rewrite (Hf c Hc), IH.
Qed.

Lemma sall_lstrip (p : ascii -> bool) (s : string) :
  Py.sall p s = true -> Py.sall p (Py.lstrip s) = true.
Proof.
  induction s as [|c s IH]; simpl; [reflexivity|].
  intros H. destruct (Py.is_space c); [|exact H].
  apply andb_prop in H as [_ H]. now apply IH.
Qed.

Lemma sall_rstrip (p : ascii -> bool) (s : string) :
  Py.sall p s = true -> Py.sall p (Py.rstrip s) = true.
Proof.
  induction s as [|c s IH]; simpl; [reflexivity|].
  intros [Hc Hs]%andb_prop. specialize (IH Hs).
  destruct (Py.rstrip s) as [|d r].
  - destruct (Py.is_space c); simpl; [reflexivity|]. now rewrite Hc.
  - simpl in *. now rewrite Hc, IH.
Qed.

Lemma lstrip_no_lead (s : string) : no_lead (Py.lstrip s).
Proof.
  induction s as [|c s IH]; simpl; [exact I|].
  destruct (Py.is_space c) eqn:E; [exact IH|exact E].
Qed.

Lemma rstrip_no_lead (s : string) : no_lead s -> no_lead (Py.rstrip s).
Proof.
  destruct s as [|c s]; simpl; [trivial|]. intros H.
  destruct (Py.rstrip s); [rewrite H|]; exact H.
Qed.

Lemma lstrip_id (s : string) : no_lead s -> Py.lstrip s = s.
Proof. destruct s as [|c s]; simpl; [trivial|]. now intros ->. Qed.

Lemma rstrip_rstrip (s : string) : Py.rstrip (Py.rstrip s) = Py.rstrip s.
Proof.
  induction s as [|c s IH]; simpl; [reflexivity|].
  destruct (Py.rstrip s) as [|d r] eqn:E.
  - destruct (Py.is_space c) eqn:Ec; simpl; [reflexivity|]. now rewrite Ec.
  - change (Py.rstrip (String c (String d r))) with
      (match Py.rstrip (String d r) with
       | EmptyString => if Py.is_space c then EmptyString else String c EmptyString
       | r' => String c r'
       end).
    now rewrite IH.
Qed.

Lemma strip_strip (s : string) : Py.strip (Py.strip s) = Py.strip s.
Proof.
  unfold Py.strip.
  rewrite (lstrip_id (Py.rstrip (Py.lstrip s))).
  - apply rstrip_rstrip.
  - apply rstrip_no_lead, lstrip_no_lead.
Qed.

Lemma sall_strip (p : ascii -> bool) (s : string) :
  Py.sall p s = true -> Py.sall p (Py.strip s) = true.
Proof. intros H. now apply sall_rstrip, sall_lstrip. Qed.

Lemma startswith_spec (k s : string) :
  Py.startswith k s = true <-> exists suf, s = k +:+ suf.
Proof.
  revert s. induction k as [|a k IH]; intros s; simpl.
  - split; [eauto|trivial].
  - destruct s as [|b s].
    + split; [discriminate|]. now intros [suf H].
    + rewrite andb_true_iff, Ascii.eqb_eq, IH. split.
      * intros [-> [suf ->]]. now exists suf.
      * intros [suf H]. injection H as -> ->. eauto.
Qed.

Lemma contains_spec (k s : string) : Py.contains k s = true <-> occurs k s.
Proof.
  unfold occurs. induction s as [|c s IH].
  - simpl. rewrite orb_false_r, startswith_spec. split.
    + intros [suf H]. now exists EmptyString, suf.
    + intros [[|a pre] [suf H]]; [eauto|discriminate].
  - cbn [Py.contains]. rewrite orb_true_iff, startswith_spec, IH. split.
    + intros [[suf H]|(pre & suf & H)].
      * now exists EmptyString, suf.
      * exists (String c pre), suf. simpl. now rewrite H.
    + intros [[|a pre] [suf H]].
      * left. now exists suf.
      * right. injection H as -> ->. eauto.
Qed.

Lemma any_in_spec (ks : list string) (s : string) :
  Py.any_in ks s = true <-> exists k, In k ks /\ occurs k s.
Proof.
  unfold Py.any_in. rewrite existsb_exists.
  split; intros (k & Hk & H); exists k; split; trivial; now apply contains_spec.
Qed.

End StringLemmas.

Lemma sanitize_kept (col : string) : Py.sall Re.kept (sanitize col) = true.
Proof.
  apply sall_strip, sall_smap. intros c. unfold Re.kept.
  destruct (Py.is_word c || Py.is_space c) eqn:E; [exact E|reflexivity].
Qed.

Lemma sanitize_idem (col : string) : sanitize (sanitize col) = sanitize col.
Proof.
  unfold sanitize at 1. unfold Re.sub_non_word.
  rewrite (smap_fixed Re.kept).
  - apply strip_strip.
  - intros c H. now rewrite H.
  - apply sanitize_kept.
Qed.

Lemma is_numeric_spec (col : string) :
  is_numeric col = true <->
  (exists k, In k money_keywords /\ occurs k (Py.lower col)) /\
  (forall k, In k exclude_keywords -> ~ occurs k (Py.lower col)).
Proof.
  unfold is_numeric, is_money_col, is_excluded.
  rewrite andb_true_iff, negb_true_iff, any_in_spec. split.
  - intros [Hm He]. split; [exact Hm|]. intros k Hk Ho.
    assert (Py.any_in exclude_keywords (Py.lower col) = true) as Ht
        by (apply any_in_spec; eauto).
    congruence.
  - intros [Hm He]. split; [exact Hm|].
    destruct (Py.any_in exclude_keywords (Py.lower col)) eqn:E; [|reflexivity].
    apply any_in_spec in E as (k & Hk & Ho). now destruct (He k Hk).
Qed.

(** ** Keywords survive sanitization *)

Lemma letter_lower_kept (a c : ascii) :
  is_letter a = true -> Ascii.eqb a (Py.lower_char c) = true -> Re.kept c = true.
Proof.
  intros Ha E. apply Ascii.eqb_eq in E. subst a. revert Ha.
  destruct c as [[] [] [] [] [] [] [] []]; vm_compute; congruence.
Qed.

Lemma letter_not_space (a c : ascii) :
  is_letter a = true -> Py.is_space c = true -> Ascii.eqb a (Py.lower_char c) = false.
Proof.
  intros Ha Hc. destruct (Ascii.eqb a (Py.lower_char c)) eqn:E; [|reflexivity].
  apply Ascii.eqb_eq in E. subst a. revert Ha Hc.
  destruct c as [[] [] [] [] [] [] [] []]; vm_compute; congruence.
Qed.

Lemma letter_sub_non_word (a c : ascii) :
  is_letter a = true ->
  Ascii.eqb a (Py.lower_char (if Re.kept c then c else " "%char))
  = Ascii.eqb a (Py.lower_char c).
Proof.
  intros Ha. destruct (Re.kept c) eqn:K; [reflexivity|].
  rewrite (letter_not_space a " "%char Ha eq_refl).
  destruct (Ascii.eqb a (Py.lower_char c)) eqn:E; [|reflexivity].
  apply (letter_lower_kept a c Ha) in E. congruence.
Qed.

Lemma startswith_sub_non_word (k : string) :
  Py.sall is_letter k = true ->
  forall s, Py.startswith k (Py.lower (Re.sub_non_word s)) = Py.startswith k (Py.lower s).
Proof.
  induction k as [|a k IH]; intros Hk s; [reflexivity|].
  simpl in Hk. apply andb_prop in Hk as [Ha Hk].
  destruct s as [|c s]; [reflexivity|].
  cbn [Re.sub_non_word Py.lower Py.smap Py.startswith].
  rewrite (letter_sub_non_word a c Ha). f_equal. now apply IH.
Qed.

Lemma contains_sub_non_word (k s : string) :
  Py.sall is_letter k = true ->
  Py.contains k (Py.lower (Re.sub_non_word s)) = Py.contains k (Py.lower s).
Proof.
  intros Hk. induction s as [|c s IH]; [reflexivity|].
  change (Py.lower (Re.sub_non_word (String c s)))
    with (String (Py.lower_char (if Re.kept c then c else " "%char))
                 (Py.lower (Re.sub_non_word s))).
  change (Py.lower (String c s)) with (String (Py.lower_char c) (Py.lower s)).
  cbn [Py.contains]. rewrite IH. f_equal.
  apply (startswith_sub_non_word k Hk (String c s)).
Qed.

Lemma startswith_rstrip (s : string) :
  forall k, Py.sall is_letter k = true ->
    Py.startswith k (Py.lower (Py.rstrip s)) = Py.startswith k (Py.lower s).
Proof.
  induction s as [|c s IH]; intros k Hk; [reflexivity|].
  destruct k as [|a k]; [reflexivity|].
  simpl in Hk. apply andb_prop in Hk as [Ha Hk]. specialize (IH k Hk).
  change (Py.lower (String c s)) with (String (Py.lower_char c) (Py.lower s)).
  cbn [Py.rstrip Py.startswith]. destruct (Py.rstrip s) as [|d r] eqn:E.
  - destruct (Py.is_space c) eqn:Hc.
    + now rewrite (letter_not_space a c Ha Hc).
    + change (Py.lower (String c EmptyString))
        with (String (Py.lower_char c) (Py.lower EmptyString)).
      cbn [Py.startswith]. now rewrite IH.
  - change (Py.lower (String c (String d r)))
      with (String (Py.lower_char c) (Py.lower (String d r))).
    cbn [Py.startswith]. now rewrite IH.
Qed.

Lemma contains_rstrip (k s : string) :
  Py.sall is_letter k = true ->
  Py.contains k (Py.lower (Py.rstrip s)) = Py.contains k (Py.lower s).
Proof.
  intros Hk. induction s as [|c s IH]; [reflexivity|].
  pose proof (startswith_rstrip (String c s) k Hk) as H1.
  assert (Py.contains k (Py.lower (Py.rstrip (String c s)))
          = Py.startswith k (Py.lower (Py.rstrip (String c s)))
            || Py.contains k (Py.lower (Py.rstrip s))) as H2.
  { cbn [Py.rstrip]. destruct (Py.rstrip s) as [|d r]; [destruct (Py.is_space c)|].
    - change (Py.lower EmptyString) with EmptyString. cbn [Py.contains].
      now destruct (Py.startswith k EmptyString).
    - reflexivity.
    - reflexivity. }
  rewrite H2, H1, IH. reflexivity.
Qed.

Lemma contains_lstrip (k s : string) :
  Py.sall is_letter k = true -> k <> EmptyString ->
  Py.contains k (Py.lower (Py.lstrip s)) = Py.contains k (Py.lower s).
Proof.
  intros Hk Hne. induction s as [|c s IH]; [reflexivity|].
  cbn [Py.lstrip]. destruct (Py.is_space c) eqn:Hc; [|reflexivity].
  rewrite IH. destruct k as [|a k]; [congruence|].
  simpl in Hk. apply andb_prop in Hk as [Ha _].
  change (Py.lower (String c s)) with (String (Py.lower_char c) (Py.lower s)).
  cbn [Py.contains Py.startswith].
  now rewrite (letter_not_space a c Ha Hc).
Qed.

(** A keyword occurs in the lower-cased sanitized header exactly when it
    occurs in the lower-cased title. *)
Lemma contains_sanitize (k s : string) :
  Py.sall is_letter k = true -> k <> EmptyString ->
  Py.contains k (Py.lower (sanitize s)) = Py.contains k (Py.lower s).
Proof.
  intros Hk Hne. unfold sanitize, Py.strip.
  now rewrite contains_rstrip, contains_lstrip, contains_sub_non_word.
Qed.

Lemma any_in_sanitize (ks : list string) (s : string) :
  forallb (fun k => Py.sall is_letter k && negb (is_empty k)) ks = true ->
  Py.any_in ks (Py.lower (sanitize s)) = Py.any_in ks (Py.lower s).
Proof.
  unfold Py.any_in. induction ks as [|k ks IH]; [reflexivity|].
  cbn [forallb existsb]. intros [[Hk Hne]%andb_prop Hks]%andb_prop.
  rewrite IH by exact Hks. f_equal. apply contains_sanitize; [exact Hk|].
  intros ->. discriminate Hne.
Qed.

(** Line 80 does not change the class of a column. *)
Lemma is_numeric_sanitize (title : string) :
  is_numeric (sanitize title) = is_numeric title.
Proof.
  unfold is_numeric, is_money_col, is_excluded.
  now rewrite !any_in_sanitize.
Qed.

(** ** The frame operations *)

Section FrameLemmas.

Variable float_repr : Qc -> string.

Lemma mapM_total {A B : Type} (f : A -> result B) (g : A -> B) (l : list A) :
  (forall a, In a l -> f a = Ok (g a)) -> mapM f l = Ok (map g l).
Proof.
  induction l as [|a l IH]; intros H; simpl; [reflexivity|].
  rewrite (H a (or_introl eq_refl)). simpl.
  rewrite IH; [reflexivity|]. intros b Hb. apply H. now right.
Qed.

Lemma filter_unique {A : Type} (f : A -> bool) (l : list A) (p : A) :
  List.filter f l = [p] -> forall q, In q l -> f q = true -> q = p.
Proof.
  intros H q Hq Hf.
  assert (In q (List.filter f l)) as Hin by (apply filter_In; auto).
  rewrite H in Hin. destruct Hin as [->|[]]. reflexivity.
Qed.

Lemma filter_setitem (fr : list (string * list value)) (col : string) (s : list value) :
  List.filter (fun p => eq_label (fst p) col)
    (map (fun p => if eq_label (fst p) col then (fst p, s) else p) fr)
  = map (fun p => (fst p, s)) (List.filter (fun p => eq_label (fst p) col) fr).
Proof.
  induction fr as [|p fr IH]; simpl; [reflexivity|].
  destruct (eq_label (fst p) col) eqn:E; simpl; rewrite E, IH; reflexivity.
Qed.

Lemma getitem_setitem (df : pd.DataFrame) (col : string) (p : string * list value)
      (s : list value) :
  List.filter (fun p => eq_label (fst p) col) (pd.frame df) = [p] ->
  pd.getitem (pd.setitem df col s) col = Ok (pd.Series s).
Proof.
  intros H. unfold pd.getitem, pd.setitem. cbn [pd.frame].
  now rewrite filter_setitem, H.
Qed.

Lemma setitem_setitem (df : pd.DataFrame) (col : string) (s t : list value) :
  pd.setitem (pd.setitem df col s) col t = pd.setitem df col t.
Proof.
  unfold pd.setitem. simpl. f_equal. rewrite map_map. apply map_ext.
  intros p. destruct (eq_label (fst p) col) eqn:E; simpl; now rewrite E.
Qed.

Lemma line_92 (s : list value) :
  str_replace_non_digit (astype_str float_repr (pd.Series s))
  = Ok (map (fun v => VStr (stripped float_repr v)) s).
Proof. simpl. now rewrite map_map. Qed.

Lemma line_93 (s : list value) :
  bind (to_numeric (pd.Series (map (fun v => VStr (stripped float_repr v)) s)))
       (fun s' => Ok (fillna0 s'))
  = Ok (map (fun v => VFloat (parsed float_repr v)) s).
Proof.
  simpl. unfold fillna0. rewrite !map_map. f_equal. apply map_ext.
  intros v. unfold parsed. now destruct (parse_float (stripped float_repr v)).
Qed.

Lemma line_94_mask (s : list value) :
  gt_ceiling (pd.Series (map (fun v => VFloat (parsed float_repr v)) s))
  = Ok (map (fun v => bool_decide (ceiling < parsed float_repr v)%Qc) s).
Proof.
  simpl. rewrite (mapM_total _ (fun v => match v with
                                         | VFloat x => bool_decide (ceiling < x)%Qc
                                         | _ => false
                                         end)).
  - now rewrite map_map.
  - intros v (w & <- & _)%in_map_iff. reflexivity.
Qed.

Lemma stored_float_parsed (v : value) :
  stored_float (py_str float_repr v)
  = if bool_decide (ceiling < parsed float_repr v)%Qc then 0%Qc else parsed float_repr v.
Proof.
  unfold stored_float, parsed, stripped.
  destruct (parse_float _) as [x|]; simpl; [reflexivity|].
  now destruct (bool_decide (ceiling < 0)%Qc).
Qed.

Lemma line_94_set (s : list value) :
  map (fun bx : bool * value => if fst bx then VFloat 0 else snd bx)
      (combine (map (fun v => bool_decide (ceiling < parsed float_repr v)%Qc) s)
               (map (fun v => VFloat (parsed float_repr v)) s))
  = coerce_series float_repr s.
Proof.
  unfold coerce_series. induction s as [|v s IH]; simpl; [reflexivity|].
  rewrite IH, stored_float_parsed.
  now destruct (bool_decide (ceiling < parsed float_repr v)%Qc).
Qed.

(** Lines 92-94 on a header exactly one column has: the column is rewritten
    cell by cell. *)
Lemma coerce_column_unique (df : pd.DataFrame) (col : string)
      (p : string * list value) :
  List.filter (fun q => eq_label (fst q) col) (pd.frame df) = [p] ->
  coerce_column float_repr df col
  = Ok {| pd.index := pd.index df;
          pd.frame := map (fun q => if eq_label (fst q) col
                                    then (fst q, coerce_series float_repr (snd q))
                                    else q) (pd.frame df) |}.
Proof.
  intros F. unfold coerce_column. unfold pd.getitem at 1. rewrite F.
  cbn [bind]. rewrite line_92. cbn [bind].
  rewrite (getitem_setitem df col p _ F). cbn [bind].
  pose proof (line_93 (snd p)) as L93.
  destruct (to_numeric _) as [s'|e]; [|discriminate]. cbn [bind] in L93 |- *.
  injection L93 as ->.
  rewrite setitem_setitem, (getitem_setitem df col p _ F). cbn [bind].
  rewrite line_94_mask. cbn [bind]. f_equal.
  unfold pd.loc_set, pd.setitem. cbn [pd.index pd.frame]. f_equal.
  rewrite map_map. apply map_ext_in. intros q Hq.
  destruct (eq_label (fst q) col) eqn:E; cbn [fst snd]; rewrite E; [|reflexivity].
  rewrite line_94_set. now rewrite (filter_unique _ _ _ F q Hq E).
Qed.

(** Lines 92-94 succeed on such a header only. *)
Lemma coerce_column_spec (df df' : pd.DataFrame) (col : string) :
  coerce_column float_repr df col = Ok df' ->
  (exists p, List.filter (fun p => eq_label (fst p) col) (pd.frame df) = [p]) /\
  pd.index df' = pd.index df /\
  pd.frame df' =
    map (fun p => if eq_label (fst p) col
                  then (fst p, coerce_series float_repr (snd p)) else p)
        (pd.frame df).
Proof.
  destruct (List.filter (fun p => eq_label (fst p) col) (pd.frame df))
    as [|p [|q l]] eqn:F.
  - unfold coerce_column, pd.getitem. now rewrite F.
  - rewrite (coerce_column_unique df col p F). intros [= <-]. eauto.
  - unfold coerce_column. unfold pd.getitem at 1. now rewrite F.
Qed.

Lemma count_label_columns (c : string) (fr : list (string * list value)) :
  count_label c (map fst fr)
  = List.length (List.filter (fun p => eq_label (fst p) c) fr).
Proof.
  unfold count_label. induction fr as [|p fr IH]; simpl; [reflexivity|].
  destruct (eq_label (fst p) c); simpl; now rewrite IH.
Qed.

Lemma count_label_0 (c : string) (ks : list string) :
  count_label c ks = 0%nat -> in_keys c ks = false.
Proof.
  unfold count_label, in_keys, eq_label.
  induction ks as [|k ks IH]; simpl; [reflexivity|].
  rewrite (String.eqb_sym c k). destruct (String.eqb k c); simpl; [discriminate|exact IH].
Qed.

Lemma in_keys_In (c : string) (ks : list string) : In c ks -> in_keys c ks = true.
Proof.
  intros H. unfold in_keys. apply existsb_exists. exists c. split; [exact H|].
  apply String.eqb_refl.
Qed.

(** The loop of lines 86-94 over the headers [todo] still to visit: a
    numeric header is visited once, since a header two columns share makes
    line 92 raise. *)
Lemma loop_spec (todo : list string) :
  forall df df' : pd.DataFrame,
    (forall c, count_label c todo <= count_label c (pd.columns df))%nat ->
    foldM (step float_repr) df todo = Ok df' ->
    pd.index df' = pd.index df /\
    pd.frame df' =
      map (fun p => if is_numeric (fst p) && in_keys (fst p) todo
                    then (fst p, coerce_series float_repr (snd p)) else p)
          (pd.frame df).
Proof.
  induction todo as [|c todo IH]; intros df df' Hle; simpl.
  - intros [= <-]. split; [reflexivity|].
    rewrite <- (map_id (pd.frame df)) at 1. apply map_ext.
    intros p. now rewrite andb_false_r.
  - unfold step at 1. destruct (is_numeric c) eqn:Hc.
    + destruct (coerce_column float_repr df c) as [df1|e] eqn:E; [|discriminate].
      cbn [bind]. intros Hrun.
      apply coerce_column_spec in E as ([p Hp] & Hi & Hf).
      assert (pd.columns df1 = pd.columns df) as Hcols.
      { unfold pd.columns. rewrite Hf, map_map. apply map_ext.
        intros q. now destruct (eq_label (fst q) c). }
      apply IH in Hrun as [Hi' Hf'].
      2:{ intros k. rewrite Hcols. specialize (Hle k).
          unfold count_label in *. simpl in Hle.
          destruct (eq_label c k); simpl in Hle; lia. }
      split; [congruence|]. rewrite Hf', Hf, map_map. apply map_ext.
      intros q. destruct (eq_label (fst q) c) eqn:Eq.
      * apply String.eqb_eq in Eq as Eq'. cbn [fst snd]. rewrite Eq', Hc.
        assert (in_keys c todo = false) as ->.
        { apply count_label_0. specialize (Hle c).
          unfold pd.columns in Hle. rewrite count_label_columns, Hp in Hle.
          unfold count_label in *. simpl in Hle.
          unfold eq_label in Hle at 1. rewrite String.eqb_refl in Hle.
          simpl in Hle. lia. }
        unfold in_keys. simpl. now rewrite String.eqb_refl.
      * unfold in_keys at 2. simpl. unfold eq_label in Eq. now rewrite Eq.
    + cbn [bind]. intros Hrun. apply IH in Hrun as [Hi Hf].
      2:{ intros k. specialize (Hle k). unfold count_label in *. simpl in Hle.
          destruct (eq_label c k); simpl in Hle; lia. }
      split; [exact Hi|]. rewrite Hf. apply map_ext. intros q.
      unfold in_keys at 2. simpl.
      destruct (String.eqb (fst q) c) eqn:Eq; [|reflexivity].
      apply String.eqb_eq in Eq. now rewrite Eq, Hc.
Qed.

Lemma convert_types_spec (df df' : pd.DataFrame) :
  convert_types float_repr df = Ok df' ->
  pd.index df' = pd.index df /\
  pd.frame df' =
    map (fun p => if is_numeric (fst p)
                  then (fst p, coerce_series float_repr (snd p)) else p)
        (pd.frame df).
Proof.
  intros H. apply loop_spec in H as [Hi Hf]; [|intros c; lia].
  split; [exact Hi|]. rewrite Hf. apply map_ext_in. intros p Hp.
  rewrite (in_keys_In (fst p) (pd.columns df)), andb_true_r; [reflexivity|].
  unfold pd.columns. now apply in_map.
Qed.

Lemma combine_map_self {A B : Type} (f : A -> B) (l : list A) :
  combine (map f l) l = map (fun a => (f a, a)) l.
Proof. induction l as [|a l IH]; simpl; [reflexivity|]. now rewrite IH. Qed.

Lemma set_columns_sanitize (df : pd.DataFrame) :
  pd.set_columns df (map sanitize (pd.columns df))
  = Ok {| pd.index := pd.index df;
          pd.frame := map (fun p => (sanitize (fst p), snd p)) (pd.frame df) |}.
Proof.
  unfold pd.set_columns, pd.columns.
  rewrite !length_map, Nat.eqb_refl, map_map, combine_map_self, map_map.
  reflexivity.
Qed.

(** Lines 79-96 on a frame: the headers are sanitized, and the columns
    whose new header is numeric are coerced cell by cell. *)
Lemma clean_spec (df df' : pd.DataFrame) :
  clean float_repr df = Ok df' ->
  pd.index df' = pd.index df /\
  pd.frame df' =
    map (fun p => (sanitize (fst p),
                   if is_numeric (sanitize (fst p))
                   then coerce_series float_repr (snd p) else snd p))
        (pd.frame df).
Proof.
  unfold clean. rewrite set_columns_sanitize. cbn [bind].
  intros [Hi Hf]%convert_types_spec. split; [exact Hi|].
  rewrite Hf. cbn [pd.frame]. rewrite map_map. apply map_ext.
  intros p. cbn [fst snd]. now destruct (is_numeric (sanitize (fst p))).
Qed.

End FrameLemmas.

(** ** Numerals and the ceiling *)

Lemma decimal_nonneg (n : N) (k : nat) : (0 <= decimal n k)%Qc.
Proof.
  unfold decimal, Qcle.
  change (0 <= Qred (Z.of_N n # Z.to_pos (10 ^ Z.of_nat k)))%Q.
  rewrite (Qred_correct (Z.of_N n # Z.to_pos (10 ^ Z.of_nat k))).
  unfold Qle. cbn [Qnum Qden]. lia.
Qed.

Lemma parse_float_nonneg (s : string) (x : Qc) :
  parse_float s = Some x -> (0 <= x)%Qc.
Proof.
  unfold parse_float. destruct (snd (span_digits s)) as [|c fp].
  - destruct (is_empty _); [discriminate|]. intros [= <-]. apply decimal_nonneg.
  - destruct (_ && _); [|discriminate]. intros [= <-]. apply decimal_nonneg.
Qed.

Lemma ceiling_nonneg : (0 <= ceiling)%Qc.
Proof. now unfold Qcle, Qle. Qed.

(** What line 94 leaves is between 0 and the ceiling. *)
Lemma stored_float_range (text : string) :
  (0 <= stored_float text)%Qc /\ (stored_float text <= ceiling)%Qc.
Proof.
  unfold stored_float.
  destruct (parse_float _) as [x|] eqn:E.
  - destruct (bool_decide (ceiling < x)%Qc) eqn:B.
    + split; [apply Qcle_refl|apply ceiling_nonneg].
    + split; [now apply parse_float_nonneg in E|].
      apply bool_decide_eq_false in B. now apply Qcnot_lt_le.
  - split; [apply Qcle_refl|apply ceiling_nonneg].
Qed.

Lemma stored_float_above (text : string) (x : Qc) :
  parse_float (Re.sub_non_digit text) = Some x -> (ceiling < x)%Qc ->
  stored_float text = 0%Qc.
Proof.
  intros E H. unfold stored_float. rewrite E.
  now rewrite bool_decide_eq_true_2.
Qed.


Example stored_float_dollars : stored_float "$1,200.50" = Q2Qc (2401 # 2).
Proof. apply Qc_is_canon. reflexivity. Qed.

Example stored_float_phone : stored_float "5551234567890" = 0%Qc.
Proof. apply Qc_is_canon. reflexivity. Qed.

Example stored_float_missing : stored_float "" = 0%Qc /\ stored_float "None" = 0%Qc.
Proof. split; apply Qc_is_canon; reflexivity. Qed.

(** ** The flattener *)

Section FlattenLemmas.

Lemma in_keys_false (k : string) (ks : list string) :
  ~ In k ks -> in_keys k ks = false.
Proof.
  intros H. unfold in_keys. destruct (existsb _ ks) eqn:E; [|reflexivity].
  apply existsb_exists in E as (x & Hx & ->%String.eqb_eq). contradiction.
Qed.

Lemma set_fresh {V : Type} (k : string) (v : V) (d : Dict.t V) :
  ~ In k (Dict.keys d) -> Dict.set k v d = (d ++ [(k, v)])%list.
Proof.
  induction d as [|[k' v'] d IH]; simpl; [reflexivity|]. intros H.
  destruct (String.eqb k' k) eqn:E.
  - apply String.eqb_eq in E. tauto.
  - rewrite IH; tauto.
Qed.

Lemma keys_set {V : Type} (k : string) (v : V) (d : Dict.t V) :
  Dict.keys (Dict.set k v d)
  = if in_keys k (Dict.keys d) then Dict.keys d else (Dict.keys d ++ [k])%list.
Proof.
  unfold in_keys. induction d as [|[k' v'] d IH]; simpl; [reflexivity|].
  rewrite (String.eqb_sym k k'). destruct (String.eqb k' k); simpl; [reflexivity|].
  rewrite IH. now destruct (existsb _ _).
Qed.

(** Filling a dictionary with fresh, distinct keys appends them in order. *)
Lemma fold_set_fresh {A V : Type} (key : A -> string) (val : A -> V) (l : list A) :
  forall d : Dict.t V,
    List.NoDup (Dict.keys d ++ map key l) ->
    fold_left (fun m a => Dict.set (key a) (val a) m) l d
    = (d ++ map (fun a => (key a, val a)) l)%list.
Proof.
  induction l as [|a l IH]; intros d H; simpl.
  - now rewrite app_nil_r.
  - simpl in H. rewrite set_fresh.
    + rewrite IH.
      * now rewrite <- app_assoc.
      * unfold Dict.keys in *. rewrite map_app, <- app_assoc. exact H.
    + apply List.NoDup_remove_2 in H. intros Hin. apply H, in_or_app. now left.
Qed.

Lemma keys_row_data (cm : Dict.t string) (item : Item) :
  Dict.keys (row_data cm item) = row_keys cm.
Proof.
  unfold row_data, row_keys.
  change ["Item Name"] with (Dict.keys [("Item Name", VStr (i_name item))]).
  generalize [("Item Name", VStr (i_name item))].
  induction cm as [|kv cm IH]; intros d; simpl; [reflexivity|].
  now rewrite IH, keys_set.
Qed.

Lemma filter_seen (ks : list string) :
  List.filter (fun k => negb (in_keys k ks)) ks = [].
Proof.
  assert (forall l, (forall k, In k l -> In k ks) ->
                    List.filter (fun k => negb (in_keys k ks)) l = []) as H.
  { induction l as [|k l IH]; intros Hl; simpl; [reflexivity|].
    rewrite (in_keys_In k ks) by (apply Hl; now left). simpl.
    apply IH. intros k' Hk'. apply Hl. now right. }
  now apply H.
Qed.

Lemma union_keys_same (rows : list (Dict.t value)) (ks : list string) :
  rows <> [] -> (forall r, In r rows -> Dict.keys r = ks) ->
  pd.union_keys rows = ks.
Proof.
  unfold pd.union_keys. destruct rows as [|r rows]; [congruence|].
  intros _ H. cbn [fold_left app]. rewrite (H r) by now left.
  assert (List.filter (fun k => negb (in_keys k [])) ks = ks) as ->.
  { clear. induction ks as [|k ks IH]; [reflexivity|].
    change (k :: List.filter (fun k => negb (in_keys k [])) ks = k :: ks).
    now rewrite IH. }
  assert (forall rs : list (Dict.t value),
            (forall r', In r' rs -> Dict.keys r' = ks) ->
            fold_left (fun acc r' =>
                         (acc ++ List.filter (fun k => negb (in_keys k acc))
                                             (Dict.keys r'))%list) rs ks = ks) as Hfix.
  { induction rs as [|r' rs IH]; intros Hrs; simpl; [reflexivity|].
    rewrite (Hrs r') by now left. rewrite filter_seen, app_nil_r.
    apply IH. intros r'' Hr''. apply Hrs. now right. }
  apply Hfix. intros r' Hr'. apply H. now right.
Qed.

Lemma columns_flatten (b : Board) :
  b_items b <> [] -> pd.columns (flatten b) = row_keys (col_map b).
Proof.
  intros H. unfold pd.columns, flatten, pd.from_records. cbn [pd.frame].
  rewrite map_map. cbn [fst]. rewrite map_id.
  apply union_keys_same.
  - unfold parsed_rows. destruct (b_items b); [congruence|discriminate].
  - intros r (item & <- & _)%in_map_iff. apply keys_row_data.
Qed.

Lemma len_flatten (b : Board) : pd.len (flatten b) = List.length (b_items b).
Proof. unfold pd.len, flatten, pd.from_records, parsed_rows. simpl. apply length_map. Qed.

Lemma cell_flatten (b : Board) (i j : nat) (item : Item) (c : string) :
  nth_error (pd.columns (flatten b)) j = Some c ->
  nth_error (b_items b) i = Some item ->
  pd.cell (flatten b) i j
  = Some (default VNaN (Dict.get c (row_data (col_map b) item))).
Proof.
  unfold pd.columns, pd.cell, flatten, pd.from_records, parsed_rows.
  cbn [pd.frame]. rewrite map_map. cbn [fst]. rewrite map_id.
  intros Hc Hi. rewrite nth_error_map, Hc. cbn [option_map snd].
  now rewrite !nth_error_map, Hi.
Qed.

Lemma get_nth {V : Type} (d : Dict.t V) (j : nat) (k : string) (v : V) :
  List.NoDup (Dict.keys d) -> nth_error d j = Some (k, v) -> Dict.get k d = Some v.
Proof.
  revert j. induction d as [|[k' v'] d IH]; intros j Hnd Hj.
  - now destruct j.
  - simpl in Hnd. apply List.NoDup_cons_iff in Hnd as [Hk' Hnd].
    destruct j as [|j]; simpl in *.
    + injection Hj as -> ->. now rewrite String.eqb_refl.
    + destruct (String.eqb k' k) eqn:E; [|eauto].
      apply String.eqb_eq in E as ->. destruct Hk'.
      apply nth_error_In in Hj. now apply (in_map fst) in Hj.
Qed.

Lemma item_vals_missing (item : Item) (k : string) :
  ~ In k (map v_id (i_column_values item)) -> item_vals item !! k = None.
Proof.
  unfold item_vals.
  assert (forall (l : list ColumnValue) (m : gmap string value),
             m !! k = None -> ~ In k (map v_id l) ->
             fold_left (fun m val => <[v_id val := text_value (v_text val)]> m) l m
               !! k = None) as H.
  { induction l as [|val l IH]; intros m Hm Hl; simpl; [exact Hm|].
    simpl in Hl. apply IH; [|tauto].
    rewrite lookup_insert_ne; [exact Hm|]. intros E. apply Hl. now left. }
  apply H. apply lookup_empty.
Qed.

Variable b : Board.
Hypothesis distinct_ids : List.NoDup (map c_id (descriptors b)).
Hypothesis distinct_titles : List.NoDup ("Item Name" :: map c_title (descriptors b)).

Lemma col_map_distinct :
  col_map b = map (fun c => (c_id c, c_title c)) (descriptors b).
Proof. unfold col_map. now rewrite fold_set_fresh. Qed.

Lemma row_data_distinct (item : Item) :
  row_data (col_map b) item
  = ("Item Name", VStr (i_name item))
      :: map (fun c => (c_title c, default (VStr "") (item_vals item !! c_id c)))
             (descriptors b).
Proof.
  unfold row_data. rewrite col_map_distinct.
  rewrite (fold_set_fresh snd (fun kv => default (VStr "") (item_vals item !! fst kv))).
  - simpl. now rewrite map_map.
  - simpl. now rewrite map_map.
Qed.

Lemma row_keys_distinct :
  row_keys (col_map b) = "Item Name" :: map c_title (descriptors b).
Proof.
  rewrite <- (keys_row_data (col_map b) {| i_name := ""; i_column_values := [] |}).
  rewrite row_data_distinct. unfold Dict.keys. simpl. now rewrite map_map.
Qed.

End FlattenLemmas.

(** ** The flattener: rows, headers and sparse items *)

(** C4, as the code has it. For a response with at least one item, whose
    descriptors other than "name" have pairwise distinct ids and pairwise
    distinct titles, none of them "Item Name": the flattened table has one row
    per item, its headers are "Item Name" followed by the descriptor titles in
    order (descriptor count + 1 headers), the first cell of a row is the item
    name, and the cell of a descriptor is the text the item has for its id, the
    empty string when the item has none. *)
Theorem flatten_rows_and_headers (b : Board) :
  b_items b <> [] ->
  List.NoDup (map c_id (descriptors b)) ->
  List.NoDup ("Item Name" :: map c_title (descriptors b)) ->
  pd.len (flatten b) = List.length (b_items b) /\
  pd.columns (flatten b) = "Item Name" :: map c_title (descriptors b) /\
  List.length (pd.columns (flatten b)) = S (List.length (descriptors b)) /\
  forall i item, nth_error (b_items b) i = Some item ->
    pd.cell (flatten b) i 0 = Some (VStr (i_name item)) /\
    forall j d, nth_error (descriptors b) j = Some d ->
      pd.cell (flatten b) i (S j)
      = Some (default (VStr "") (item_vals item !! c_id d)) /\
      (~ In (c_id d) (map v_id (i_column_values item)) ->
       pd.cell (flatten b) i (S j) = Some (VStr "")).
Proof.
  intros Hitems Hids Htitles.
  assert (pd.columns (flatten b) = "Item Name" :: map c_title (descriptors b)) as Hcols.
  { rewrite columns_flatten by exact Hitems. now apply row_keys_distinct. }
  split; [apply len_flatten|]. split; [exact Hcols|].
  split; [rewrite Hcols; simpl; now rewrite length_map|].
  intros i item Hi.
  assert (List.NoDup (Dict.keys (row_data (col_map b) item))) as Hnd.
  { rewrite keys_row_data, row_keys_distinct; assumption. }
  split.
  - rewrite (cell_flatten b i 0 item "Item Name") by (rewrite ?Hcols; trivial).
    rewrite (get_nth _ 0 "Item Name" (VStr (i_name item)) Hnd); [reflexivity|].
    now rewrite row_data_distinct.
  - intros j d Hj.
    assert (pd.cell (flatten b) i (S j)
            = Some (default (VStr "") (item_vals item !! c_id d))) as Hcell.
    { rewrite (cell_flatten b i (S j) item (c_title d)); [|
        rewrite Hcols; simpl; now rewrite nth_error_map, Hj | exact Hi].
      rewrite (get_nth _ (S j) (c_title d)
                 (default (VStr "") (item_vals item !! c_id d)) Hnd); [reflexivity|].
      rewrite row_data_distinct by assumption. simpl.
      now rewrite nth_error_map, Hj. }
    split; [exact Hcell|]. intros Hmiss.
    now rewrite Hcell, item_vals_missing.
Qed.

Lemma flatten_rows_and_headers_witness :
  pd.len (flatten sample_board) = 3%nat /\
  pd.columns (flatten sample_board)
  = ["Item Name"; "Deal Value ($)"; "Stage"; "Probability"] /\
  pd.cell (flatten sample_board) 2 2 = Some (VStr "").
Proof.
  assert (b_items sample_board <> []) as H1 by discriminate.
  assert (List.NoDup (map c_id (descriptors sample_board))) as H2.
  { vm_compute. repeat constructor; simpl; intuition discriminate. }
  assert (List.NoDup ("Item Name" :: map c_title (descriptors sample_board))) as H3.
  { vm_compute. repeat constructor; simpl; intuition discriminate. }
  destruct (flatten_rows_and_headers sample_board H1 H2 H3) as (Hl & Hc & _ & Hcell).
  split; [exact Hl|]. split; [exact Hc|].
  destruct (Hcell 2%nat {| i_name := "Gamma";
                           i_column_values := [ {| v_id := "v"; v_text := Some "-100" |} ] |}
                  eq_refl) as [_ Hj].
  destruct (Hj 1%nat {| c_id := "s"; c_title := "Stage" |} eq_refl) as [_ Hs].
  apply Hs. simpl. intuition discriminate.
Defined.

(** C4 as written fails: two descriptors with one title make one header. *)
Lemma flatten_twin_titles :
  ~ (forall b : Board,
        b_items b <> [] ->
        List.length (pd.columns (flatten b)) = S (List.length (descriptors b))).
Proof.
  intros H. specialize (H twin_board). vm_compute in H.
  assert (2 = 3)%nat as E by (apply H; discriminate). discriminate E.
Qed.

(** ** The pipeline *)

Section PipelineLemmas.

Variable float_repr : Qc -> string.
Variable requests_post : string -> result Response.
Variable board_id : string.

Lemma fetch_answers (b : Board) :
  answers requests_post board_id b ->
  fetch_and_clean float_repr requests_post board_id
  = match clean float_repr (flatten b) with
    | Ok df => (df, [])
    | Raise e => (pd.empty, ["Fetch Error: " +:+ exn_str e])
    end.
Proof.
  intros (rest & response & Hp & Hj).
  unfold fetch_and_clean, fetch_try. rewrite Hp. cbn [bind]. rewrite Hj.
  cbn [bind p_errors p_data first].
  now destruct (clean float_repr (flatten b)).
Qed.

(** Either the frame returned is the empty one, or it is the cleaned
    flattening of the first board. *)
Lemma fetch_cases :
  fst (fetch_and_clean float_repr requests_post board_id) = pd.empty \/
  exists b, clean float_repr (flatten b)
            = Ok (fst (fetch_and_clean float_repr requests_post board_id)).
Proof.
  unfold fetch_and_clean, fetch_try.
  destruct (requests_post (query board_id)) as [response|e]; [|now left].
  cbn [bind]. destruct (json response) as [data|e]; [|now left].
  cbn [bind]. destruct (p_errors data) as [errors|].
  - destruct (first errors); now left.
  - destruct (p_data data) as [[|b rest]|]; cbn [bind first]; try now left.
    destruct (clean float_repr (flatten b)) as [df|e] eqn:E; [|now left].
    right. exists b. now rewrite E.
Qed.

Lemma cell_clean (df df' : pd.DataFrame) (i j : nat) (col : string) :
  clean float_repr df = Ok df' ->
  nth_error (pd.columns df') j = Some col ->
  exists p, nth_error (pd.frame df) j = Some p /\ col = sanitize (fst p) /\
    pd.cell df' i j
    = if is_numeric col
      then option_map (fun v => VFloat (stored_float (py_str float_repr v)))
                      (nth_error (snd p) i)
      else nth_error (snd p) i.
Proof.
  intros [_ Hf]%clean_spec. unfold pd.columns, pd.cell. rewrite Hf.
  rewrite map_map, !nth_error_map. cbn [fst].
  destruct (nth_error (pd.frame df) j) as [p|]; [|discriminate].
  cbn [option_map snd fst]. intros [= <-]. exists p. split; [reflexivity|].
  split; [reflexivity|].
  destruct (is_numeric (sanitize (fst p))); [|reflexivity].
  unfold coerce_series. now rewrite nth_error_map.
Qed.

End PipelineLemmas.

(** ** Money columns *)



(** C2. In every table the pipeline returns, a cell of a column whose header
    is classified as numeric is a float between 0 and 10^12; a text that
    parses above 10^12 is stored as 0, as is "5551234567890"; and the text of
    a missing or null cell is stored as 0. *)
Theorem numeric_cells_in_range (float_repr : Qc -> string)
    (requests_post : string -> result Response) (board_id : string) :
  let df := fst (fetch_and_clean float_repr requests_post board_id) in
  (forall i j col w,
      nth_error (pd.columns df) j = Some col -> is_numeric col = true ->
      pd.cell df i j = Some w ->
      exists x, w = VFloat x /\ (0 <= x)%Qc /\ (x <= ceiling)%Qc) /\
  (forall text x,
      parse_float (Re.sub_non_digit text) = Some x -> (ceiling < x)%Qc ->
      stored_float text = 0%Qc) /\
  stored_float "5551234567890" = 0%Qc /\
  stored_float (py_str float_repr (VStr "")) = 0%Qc /\
  stored_float (py_str float_repr VNone) = 0%Qc.
Proof.
  intros df. split; [|split; [exact stored_float_above|split; [exact stored_float_phone|]]].
  - intros i j col w Hcol Hnum Hw. subst df.
    destruct (fetch_cases float_repr requests_post board_id) as [E|[b E]].
    + rewrite E in Hcol. now destruct j.
    + destruct (cell_clean float_repr _ _ i j col E Hcol) as (p & _ & _ & Hcell).
      rewrite Hnum in Hcell. rewrite Hcell in Hw.
      destruct (nth_error (snd p) i) as [v|]; [|discriminate].
      injection Hw as <-. eexists. split; [reflexivity|]. apply stored_float_range.
  - exact stored_float_missing.
Qed.

Lemma numeric_cells_in_range_witness :
  exists x, VFloat 0%Qc = VFloat x /\ (0 <= x)%Qc /\ (x <= ceiling)%Qc.
Proof.
  destruct (numeric_cells_in_range no_repr sample_post "1") as [Hc _].
  apply (Hc 1%nat 1%nat "Deal Value").
  - reflexivity.
  - reflexivity.
  - vm_compute. reflexivity.
Defined.

(** C3. A header is classified as numeric exactly when its lower-cased text
    contains a money keyword and no exclude keyword; the sanitization of line
    80 does not change the class of a title; the loop coerces the columns so
    classified and leaves the others as they are; "Probability" is not
    numeric. *)
Theorem numeric_iff_money_and_not_excluded (float_repr : Qc -> string) :
  (forall col,
      is_numeric col = true <->
      (exists k, In k money_keywords /\ occurs k (Py.lower col)) /\
      (forall k, In k exclude_keywords -> ~ occurs k (Py.lower col))) /\
  (forall title, is_numeric (sanitize title) = is_numeric title) /\
  (forall df df', convert_types float_repr df = Ok df' ->
      pd.frame df' = map (fun p => if is_numeric (fst p)
                                   then (fst p, coerce_series float_repr (snd p))
                                   else p) (pd.frame df)) /\
  is_numeric "Probability" = false.
Proof.
  split; [exact is_numeric_spec|]. split; [exact is_numeric_sanitize|].
  split; [|reflexivity].
  intros df df' H. now apply convert_types_spec in H.
Qed.

Lemma numeric_iff_money_and_not_excluded_witness :
  pd.frame {| pd.index := 1; pd.frame := [("Probability", [VStr "40%"])] |}
  = map (fun p => if is_numeric (fst p)
                  then (fst p, coerce_series no_repr (snd p)) else p)
        [("Probability", [VStr "40%"])].
Proof.
  destruct (numeric_iff_money_and_not_excluded no_repr) as (_ & _ & H & _).
  exact (H {| pd.index := 1; pd.frame := [("Probability", [VStr "40%"])] |} _ eq_refl).
Defined.

(** ** Empty and failed fetches *)

(** C5, as the code has it. When the upstream answers with a board that has
    no item, the pipeline returns the empty table, with no row and no header,
    and reports nothing. *)
Theorem no_items_empty_table (float_repr : Qc -> string)
    (requests_post : string -> result Response) (board_id : string) (b : Board) :
  answers requests_post board_id b ->
  b_items b = [] ->
  fetch_and_clean float_repr requests_post board_id = (pd.empty, []) /\
  pd.len pd.empty = 0%nat /\ pd.columns pd.empty = [].
Proof.
  intros Hb Hitems. split; [|split; reflexivity].
  rewrite (fetch_answers float_repr requests_post board_id b Hb).
  unfold flatten, parsed_rows. now rewrite Hitems.
Qed.

Lemma no_items_empty_table_witness :
  fetch_and_clean no_repr idle_post "1" = (pd.empty, []) /\
  pd.len pd.empty = 0%nat /\ pd.columns pd.empty = [].
Proof.
  apply (no_items_empty_table no_repr idle_post "1" idle_board).
  - exists [], {| json := Ok {| p_errors := None; p_data := Some [idle_board] |} |}.
    split; reflexivity.
  - reflexivity.
Defined.

(** C5 as written fails: with no item the table has no header at all. *)
Lemma no_items_no_headers :
  ~ (forall (float_repr : Qc -> string) (requests_post : string -> result Response)
            (board_id : string) (b : Board),
        answers requests_post board_id b ->
        b_items b = [] ->
        pd.columns (fst (fetch_and_clean float_repr requests_post board_id))
        = "Item Name" :: map (fun c => sanitize (c_title c)) (descriptors b)).
Proof.
  intros H. specialize (H no_repr idle_post "1" idle_board).
  assert (answers idle_post "1" idle_board) as Ha
      by (exists [], {| json := Ok {| p_errors := None; p_data := Some [idle_board] |} |};
          split; reflexivity).
  specialize (H Ha eq_refl). vm_compute in H. discriminate H.
Qed.

(** C6. Whatever the upstream does, the pipeline returns a table and the
    texts it reported. When the response carries an error list that is not
    empty, the table is the empty one and the report is the first message;
    when anything in the [try] block raises (the request, the decoding of
    the body, a missing key, an empty list), the table is the empty one and
    the report is the text of the exception. *)
Theorem upstream_failure_empty_table (float_repr : Qc -> string)
    (requests_post : string -> result Response) (board_id : string) :
  let run := fetch_and_clean float_repr requests_post board_id in
  (forall response data message rest,
      requests_post (query board_id) = Ok response ->
      json response = Ok data ->
      p_errors data = Some (message :: rest) ->
      run = (pd.empty, ["Monday API Error: " +:+ message])) /\
  (forall e,
      fetch_try float_repr requests_post board_id = Raise e ->
      run = (pd.empty, ["Fetch Error: " +:+ exn_str e])) /\
  (forall e,
      requests_post (query board_id) = Raise e ->
      fetch_try float_repr requests_post board_id = Raise e) /\
  (forall response e,
      requests_post (query board_id) = Ok response ->
      json response = Raise e ->
      fetch_try float_repr requests_post board_id = Raise e) /\
  (forall response data,
      requests_post (query board_id) = Ok response ->
      json response = Ok data ->
      p_errors data = Some [] \/
      (p_errors data = None /\ (p_data data = None \/ p_data data = Some [])) ->
      exists e, fetch_try float_repr requests_post board_id = Raise e).
Proof.
  intros run. subst run. unfold fetch_and_clean, fetch_try.
  repeat split.
  - intros response data message rest H1 H2 H3.
    rewrite H1. cbn [bind]. rewrite H2. cbn [bind]. now rewrite H3.
  - now intros e ->.
  - now intros e ->.
  - intros response e H1 H2. rewrite H1. cbn [bind]. now rewrite H2.
  - intros response data H1 H2. rewrite H1. cbn [bind]. rewrite H2. cbn [bind].
    intros [->|[-> [->| ->]]]; cbn [bind first]; eauto.
Qed.

Lemma upstream_failure_empty_table_witness :
  fetch_and_clean no_repr denied_post "1"
  = (pd.empty, ["Monday API Error: Not Authenticated"]).
Proof.
  destruct (upstream_failure_empty_table no_repr denied_post "1") as [H _].
  exact (H _ _ "Not Authenticated" [] eq_refl eq_refl eq_refl).
Defined.

(** ** Headers *)

(** C9. A sanitized header contains word characters and blanks only, is
    trimmed, and is left as it is by a second sanitization; line 80 gives
    every header of the table its sanitized form. *)
Theorem sanitize_no_punctuation_idempotent (float_repr : Qc -> string) :
  (forall col,
      sanitize col
      = Py.strip (Py.smap (fun c => if Re.kept c then c else " "%char) col) /\
      Py.sall Re.kept (sanitize col) = true /\
      Py.strip (sanitize col) = sanitize col /\
      sanitize (sanitize col) = sanitize col) /\
  (forall df df', clean float_repr df = Ok df' ->
      pd.columns df' = map sanitize (pd.columns df)).
Proof.
  split.
  - intros col. split; [reflexivity|]. split; [apply sanitize_kept|].
    split; [apply strip_strip|apply sanitize_idem].
  - intros df df' [_ Hf]%clean_spec. unfold pd.columns.
    rewrite Hf, !map_map. reflexivity.
Qed.

Lemma sanitize_no_punctuation_idempotent_witness :
  pd.columns {| pd.index := 1; pd.frame := [("Deal Value", [VFloat (stored_float "7")])] |}
  = map sanitize (pd.columns {| pd.index := 1; pd.frame := [("Deal Value ($)", [VStr "7"])] |}).
Proof.
  destruct (sanitize_no_punctuation_idempotent no_repr) as [_ H].
  exact (H {| pd.index := 1; pd.frame := [("Deal Value ($)", [VStr "7"])] |} _ eq_refl).
Defined.

(** ** Signs *)


Lemma sall_app (p : ascii -> bool) (s t : string) :
  Py.sall p (s +:+ t) = Py.sall p s && Py.sall p t.
Proof.
  induction s as [|c s IH]; simpl; [reflexivity|]. now rewrite IH, andb_assoc.
Qed.

Lemma sall_weaken (p q : ascii -> bool) (s : string) :
  (forall c, p c = true -> q c = true) -> Py.sall p s = true -> Py.sall q s = true.
Proof.
  intros H. induction s as [|c s IH]; simpl; [reflexivity|].
  intros [Hc Hs]%andb_prop. now rewrite (H c Hc), IH.
Qed.

Lemma span_digits_spec (s : string) :
  s = fst (span_digits s) +:+ snd (span_digits s) /\
  Py.sall Py.is_digit (fst (span_digits s)) = true.
Proof.
  induction s as [|c s [IH1 IH2]]; simpl; [split; reflexivity|].
  destruct (Py.is_digit c) eqn:E; simpl.
  - rewrite E, IH2. split; [|reflexivity].
    change (String c s = String c (fst (span_digits s) +:+ snd (span_digits s))).
    now f_equal.
  - split; reflexivity.
Qed.








(** ** The query engine *)



(** ** Code fences *)

Lemma plain_cons (c : ascii) (s : string) :
  plain (String c s) -> Ascii.eqb c "`"%char = false /\ plain s.
Proof.
  unfold plain, not_backtick. simpl. intros [Hc Hs]%andb_prop.
  now apply negb_true_iff in Hc.
Qed.

(** Outside a match, the scan copies a character that is not a backtick. *)
Lemma scan_copy (bol : bool) (c : ascii) (s : string) :
  Ascii.eqb c "`"%char = false ->
  Re.sub_fence_from bol 0 false (String c s)
  = String c (Re.sub_fence_from (Ascii.eqb c Re.newline) 0 false s).
Proof.
  intros Hc. cbn [Re.sub_fence_from andb].
  assert (Py.startswith Re.fence_python (String c s) = false) as ->.
  { unfold Re.fence_python. cbn [Py.startswith].
    rewrite (Ascii.eqb_sym _ c), Hc. reflexivity. }
  assert (Py.startswith Re.fence (String c s) = false) as ->.
  { unfold Re.fence. cbn [Py.startswith].
    rewrite (Ascii.eqb_sym _ c), Hc. reflexivity. }
  rewrite andb_false_r. reflexivity.
Qed.

(** The closing marker at the very end is dropped. *)
Lemma scan_closing (bol ws : bool) : Re.sub_fence_from bol 0 ws Re.fence = EmptyString.
Proof. destruct bol, ws; reflexivity. Qed.

Lemma scan_plain (s : string) :
  forall bol, plain s -> Re.sub_fence_from bol 0 false (s +:+ Re.fence) = s.
Proof.
  induction s as [|c s IH]; intros bol Hs.
  - apply scan_closing.
  - apply plain_cons in Hs as [Hc Hs].
    change (String c s +:+ Re.fence) with (String c (s +:+ Re.fence)).
    rewrite scan_copy by exact Hc. now rewrite IH.
Qed.

(** After [```python], the blanks are read by [\s*] and the rest is copied. *)
Lemma scan_after_python (s : string) :
  forall bol, plain s -> Re.sub_fence_from bol 0 true (s +:+ Re.fence) = Py.lstrip s.
Proof.
  induction s as [|c s IH]; intros bol Hs.
  - apply scan_closing.
  - apply plain_cons in Hs as [Hc Hs].
    change (String c s +:+ Re.fence) with (String c (s +:+ Re.fence)).
    cbn [Re.sub_fence_from Py.lstrip andb].
    destruct (Py.is_space c) eqn:E.
    + now apply IH.
    + change (Re.sub_fence_from bol 0 false (String c (s +:+ Re.fence)) = String c s).
      rewrite scan_copy by exact Hc. now rewrite scan_plain.
Qed.

Lemma sall_space_lstrip (ws s : string) :
  Py.sall Py.is_space ws = true -> Py.lstrip (ws +:+ s) = Py.lstrip s.
Proof.
  induction ws as [|c ws IH]; simpl; [reflexivity|].
  intros [Hc Hws]%andb_prop. rewrite Hc. now apply IH.
Qed.

Lemma plain_app (s t : string) : plain s -> plain t -> plain (s +:+ t).
Proof. unfold plain. intros Hs Ht. now rewrite sall_app, Hs, Ht. Qed.

Lemma space_plain (ws : string) : Py.sall Py.is_space ws = true -> plain ws.
Proof.
  apply sall_weaken. intros c Hc. unfold not_backtick.
  destruct (Ascii.eqb c "`"%char) eqn:E; [|reflexivity].
  apply Ascii.eqb_eq in E. subst c. discriminate Hc.
Qed.

Lemma rstrip_app (s t : string) :
  Py.rstrip t <> EmptyString -> Py.rstrip (s +:+ t) = s +:+ Py.rstrip t.
Proof.
  intros Ht. induction s as [|c s IH]; [reflexivity|].
  change (String c s +:+ t) with (String c (s +:+ t)).
  cbn [Py.rstrip]. rewrite IH.
  change (String c s +:+ Py.rstrip t) with (String c (s +:+ Py.rstrip t)).
  destruct (s +:+ Py.rstrip t) as [|d r] eqn:E; [|reflexivity].
  destruct s; [|discriminate]. simpl in E. contradiction.
Qed.

Lemma sapp_assoc (s t u : string) : (s +:+ t) +:+ u = s +:+ (t +:+ u).
Proof.
  induction s as [|c s IH]; [reflexivity|].
  change (String c ((s +:+ t) +:+ u) = String c (s +:+ (t +:+ u))).
  now rewrite IH.
Qed.

(** A text between two backticks is already trimmed. *)
Lemma strip_fenced (s : string) :
  Py.strip ("`" +:+ s +:+ Re.fence) = "`" +:+ s +:+ Re.fence.
Proof.
  unfold Py.strip. change (Py.lstrip ("`" +:+ s +:+ Re.fence)) with ("`" +:+ s +:+ Re.fence).
  assert (Py.rstrip (s +:+ Re.fence) = s +:+ Re.fence) as H
      by (rewrite rstrip_app; [reflexivity|discriminate]).
  rewrite (rstrip_app "`"); rewrite H; [reflexivity|]. now destruct s.
Qed.

Lemma strip_lstrip (s : string) : Py.strip (Py.lstrip s) = Py.strip s.
Proof. unfold Py.strip. now rewrite (lstrip_id (Py.lstrip s)) by apply lstrip_no_lead. Qed.

(** C8, as the code has it. A block that opens with the lower-case marker
    [```python] and any blanks, or with a bare [```] at the end of its line,
    and that closes with [```], is run without its markers and trimmed, when
    the snippet holds no backtick; the markers are looked for on every line;
    the match is case-sensitive. *)
Theorem fences_stripped (body : string) :
  plain body ->
  (forall ws, Py.sall Py.is_space ws = true ->
      clean_code (Re.fence_python +:+ ws +:+ body +:+ Re.fence) = Py.strip body) /\
  clean_code (Re.fence +:+ nl +:+ body +:+ Re.fence) = Py.strip body /\
  clean_code ("Here is the code:" +:+ nl +:+ "```python" +:+ nl +:+ "result = 1"
              +:+ nl +:+ "```" +:+ nl +:+ "Done.")
  = "Here is the code:" +:+ nl +:+ "result = 1" +:+ nl +:+ nl +:+ "Done." /\
  clean_code ("```PYTHON" +:+ nl +:+ "result = 1" +:+ nl +:+ "```")
  = "```PYTHON" +:+ nl +:+ "result = 1".
Proof.
  intros Hb. split; [|split; [|split; reflexivity]].
  - intros ws Hws. unfold clean_code, raw_code.
    rewrite <- (sapp_assoc ws body Re.fence).
    change (Re.fence_python +:+ (ws +:+ body) +:+ Re.fence)
      with ("`" +:+ ("``python" +:+ (ws +:+ body)) +:+ Re.fence).
    rewrite strip_fenced.
    change (Re.sub_fence ("`" +:+ ("``python" +:+ (ws +:+ body)) +:+ Re.fence))
      with (Re.sub_fence_from false 0 true ((ws +:+ body) +:+ Re.fence)).
    rewrite scan_after_python by (apply plain_app; [now apply space_plain|exact Hb]).
    now rewrite strip_lstrip, <- (strip_lstrip (ws +:+ body)), sall_space_lstrip, strip_lstrip.
  - unfold clean_code, raw_code.
    rewrite <- (sapp_assoc nl body Re.fence).
    change (Re.fence +:+ (nl +:+ body) +:+ Re.fence)
      with ("`" +:+ ("``" +:+ (nl +:+ body)) +:+ Re.fence).
    rewrite strip_fenced.
    change (Re.sub_fence ("`" +:+ ("``" +:+ (nl +:+ body)) +:+ Re.fence))
      with (Re.sub_fence_from false 0 false ((nl +:+ body) +:+ Re.fence)).
    rewrite scan_plain by (apply plain_app; [reflexivity|exact Hb]).
    reflexivity.
Qed.

Lemma fences_stripped_witness :
  clean_code (Re.fence_python +:+ nl +:+ "result = 1" +:+ nl +:+ Re.fence)
  = Py.strip ("result = 1" +:+ nl).
Proof.
  destruct (fences_stripped ("result = 1" +:+ nl) eq_refl) as [H _].
  exact (H nl eq_refl).
Defined.

(** C8 as written fails: the marker is not matched in another case. *)
Lemma fence_case_sensitive :
  ~ (forall tag body : string,
        Py.lower tag = "python" -> plain body ->
        clean_code (Re.fence +:+ tag +:+ nl +:+ body +:+ Re.fence) = Py.strip body).
Proof.
  intros H. specialize (H "Python" ("result = 1" +:+ nl) eq_refl eq_refl).
  vm_compute in H. discriminate H.
Qed.


(** * Further properties *)

(** ** When the cleaning succeeds *)

Lemma coerce_column_twice (float_repr : Qc -> string) (df : pd.DataFrame) (col : string) :
  (2 <= count_label col (pd.columns df))%nat ->
  coerce_column float_repr df col = Raise (AttributeError no_str_accessor).
Proof.
  unfold pd.columns. rewrite count_label_columns. intros H.
  unfold coerce_column. unfold pd.getitem at 1.
  destruct (List.filter _ (pd.frame df)) as [|p [|q l]]; simpl in H; try lia.
  reflexivity.
Qed.

Lemma coerce_column_once (float_repr : Qc -> string) (df : pd.DataFrame) (col : string) :
  count_label col (pd.columns df) = 1%nat ->
  exists df', coerce_column float_repr df col = Ok df' /\ pd.columns df' = pd.columns df.
Proof.
  unfold pd.columns at 1. rewrite count_label_columns. intros H.
  destruct (List.filter (fun q => eq_label (fst q) col) (pd.frame df))
    as [|p [|q l]] eqn:F; simpl in H; try lia.
  eexists. split; [apply (coerce_column_unique float_repr df col p F)|].
  unfold pd.columns. cbn [pd.frame]. rewrite map_map. apply map_ext.
  intros r. now destruct (eq_label (fst r) col).
Qed.

Lemma count_label_In (c : string) (ks : list string) :
  In c ks -> (1 <= count_label c ks)%nat.
Proof.
  unfold count_label. induction ks as [|k ks IH]; intros H; [contradiction|].
  simpl. destruct (eq_label k c) eqn:E; simpl; [lia|].
  destruct H as [->|H]; [|now apply IH].
  unfold eq_label in E. now rewrite String.eqb_refl in E.
Qed.

(** The loop of lines 86-94 from any point on: it ends well when every
    numeric header still to visit labels one column, and raises on the
    first one that labels several. *)
Lemma loop_outcome (float_repr : Qc -> string) (todo : list string) :
  forall df : pd.DataFrame,
    (forall c, In c todo -> In c (pd.columns df)) ->
    (Forall (fun c => is_numeric c = true -> count_label c (pd.columns df) = 1%nat) todo ->
     exists df', foldM (step float_repr) df todo = Ok df') /\
    (Exists (fun c => is_numeric c = true /\ count_label c (pd.columns df) <> 1%nat) todo ->
     foldM (step float_repr) df todo = Raise (AttributeError no_str_accessor)).
Proof.
  induction todo as [|c todo IH]; intros df Hin.
  - split; [eauto|]. intros H. inversion H.
  - assert (forall c', In c' todo -> In c' (pd.columns df)) as Hin'
        by (intros c' H; apply Hin; now right).
    pose proof (count_label_In c (pd.columns df) (Hin c (or_introl eq_refl))) as Hc.
    cbn [foldM]. unfold step at 1 3. destruct (is_numeric c) eqn:Hn.
    + destruct (Nat.eq_dec (count_label c (pd.columns df)) 1%nat) as [H1|H1].
      * destruct (coerce_column_once float_repr df c H1) as (df1 & -> & Hcols).
        cbn [bind]. rewrite <- Hcols in Hin', H1 |- *.
        destruct (IH df1 Hin') as [IHok IHbad]. split.
        -- intros H. apply IHok. now inversion H.
        -- intros H. apply IHbad. inversion H as [? ? [_ Hbad]|]; [contradiction|assumption].
      * rewrite coerce_column_twice by lia. cbn [bind]. split; [|reflexivity].
        intros H. inversion H as [|? ? Hhead _]. now specialize (Hhead Hn).
    + cbn [bind]. destruct (IH df Hin') as [IHok IHbad]. split.
      * intros H. apply IHok. now inversion H.
      * intros H. apply IHbad. inversion H as [? ? [Hbad _]|]; [congruence|assumption].
Qed.

(** X1. The cleaning of lines 79-96 succeeds when every sanitized header that
    is numeric labels one column; when two columns share a numeric sanitized
    header, line 92 raises and the pipeline returns the empty table with the
    report of that exception. *)
Theorem clean_succeeds_iff_numeric_headers_unique (float_repr : Qc -> string)
    (df : pd.DataFrame) :
  let headers := map sanitize (pd.columns df) in
  (Forall (fun c => is_numeric c = true -> count_label c headers = 1%nat) headers ->
   exists df', clean float_repr df = Ok df') /\
  (Exists (fun c => is_numeric c = true /\ count_label c headers <> 1%nat) headers ->
   clean float_repr df = Raise (AttributeError no_str_accessor)) /\
  (forall requests_post board_id b,
      answers requests_post board_id b -> df = flatten b ->
      Exists (fun c => is_numeric c = true /\ count_label c headers <> 1%nat) headers ->
      fetch_and_clean float_repr requests_post board_id
      = (pd.empty, ["Fetch Error: " +:+ no_str_accessor])).
Proof.
  intros headers.
  assert (pd.columns {| pd.index := pd.index df;
                        pd.frame := map (fun p => (sanitize (fst p), snd p)) (pd.frame df) |}
          = headers) as Hcols.
  { unfold headers, pd.columns. cbn [pd.frame]. now rewrite !map_map. }
  pose proof (loop_outcome float_repr headers
                {| pd.index := pd.index df;
                   pd.frame := map (fun p => (sanitize (fst p), snd p)) (pd.frame df) |})
    as L.
  rewrite Hcols in L. specialize (L (fun c H => H)). destruct L as [Lok Lbad].
  assert (clean float_repr df
          = foldM (step float_repr)
              {| pd.index := pd.index df;
                 pd.frame := map (fun p => (sanitize (fst p), snd p)) (pd.frame df) |}
              headers) as Hclean.
  { unfold clean. rewrite set_columns_sanitize. cbn [bind].
    unfold convert_types. now rewrite Hcols. }
  split; [|split].
  - intros H. rewrite Hclean. now apply Lok.
  - intros H. rewrite Hclean. now apply Lbad.
  - intros requests_post board_id b Hb -> H.
    rewrite (fetch_answers float_repr requests_post board_id b Hb).
    rewrite Hclean, (Lbad H). reflexivity.
Qed.

Lemma clean_succeeds_iff_numeric_headers_unique_witness :
  fetch_and_clean no_repr clash_post "1"
  = (pd.empty, ["Fetch Error: " +:+ no_str_accessor]).
Proof.
  destruct (clean_succeeds_iff_numeric_headers_unique no_repr (flatten clash_board))
    as (_ & _ & H).
  apply (H clash_post "1" clash_board).
  - exists [], {| json := Ok {| p_errors := None; p_data := Some [clash_board] |} |}.
    split; reflexivity.
  - reflexivity.
  - vm_compute. apply Exists_cons_tl, Exists_cons_hd. split; [reflexivity|discriminate].
Defined.


(** ** The shape of the table returned *)

Lemma rectangular_from_records (rows : list (Dict.t value)) :
  rectangular (pd.from_records rows).
Proof.
  unfold rectangular, pd.from_records, pd.len. cbn [pd.frame pd.index].
  apply Forall_forall. intros p (c & <- & _)%in_map_iff. cbn [snd].
  apply length_map.
Qed.

Lemma rectangular_clean (float_repr : Qc -> string) (df df' : pd.DataFrame) :
  clean float_repr df = Ok df' -> rectangular df -> rectangular df'.
Proof.
  intros [Hi Hf]%clean_spec. unfold rectangular, pd.len. rewrite Hi, Hf.
  intros H. apply Forall_forall. intros p (q & <- & Hq)%in_map_iff. cbn [snd].
  rewrite Forall_forall in H. specialize (H q Hq).
  destruct (is_numeric (sanitize (fst q))); [|exact H].
  unfold coerce_series. now rewrite length_map.
Qed.

(** X2. Whatever the upstream does, the table returned is rectangular: every
    column has one cell per row. When the upstream answers with a board and
    the table has a header, it has one row per item of the board. *)
Theorem returned_table_rectangular (float_repr : Qc -> string)
    (requests_post : string -> result Response) (board_id : string) :
  let df := fst (fetch_and_clean float_repr requests_post board_id) in
  rectangular df /\
  (forall b, answers requests_post board_id b -> pd.columns df <> [] ->
             pd.len df = List.length (b_items b) /\ b_items b <> []).
Proof.
  intros df. subst df. split.
  - destruct (fetch_cases float_repr requests_post board_id) as [->|[b E]].
    + constructor.
    + apply (rectangular_clean float_repr _ _ E), rectangular_from_records.
  - intros b Hb. rewrite (fetch_answers float_repr requests_post board_id b Hb).
    destruct (clean float_repr (flatten b)) as [df|e] eqn:E; cbn [fst];
      [|intros H; now contradiction H].
    apply clean_spec in E as [Hi Hf]. intros Hcols.
    unfold pd.len. rewrite Hi. split; [apply len_flatten|].
    intros Hitems. apply Hcols. unfold pd.columns. rewrite Hf.
    unfold flatten, parsed_rows. now rewrite Hitems.
Qed.

Lemma returned_table_rectangular_witness :
  pd.len (fst (fetch_and_clean no_repr sample_post "1")) = 3%nat /\
  b_items sample_board <> [].
Proof.
  destruct (returned_table_rectangular no_repr sample_post "1") as [_ H].
  apply (H sample_board).
  - exists [], {| json := Ok {| p_errors := None; p_data := Some [sample_board] |} |}.
    split; reflexivity.
  - vm_compute. discriminate.
Defined.

Lemma row_keys_head (cm : Dict.t string) :
  exists rest, row_keys cm = "Item Name" :: rest.
Proof.
  unfold row_keys.
  assert (forall (l : Dict.t string) (ks : list string),
             fold_left (fun ks kv => if in_keys (snd kv) ks then ks
                                     else (ks ++ [snd kv])%list) l ("Item Name" :: ks)
             = "Item Name" :: fold_left (fun ks kv =>
                                           if in_keys (snd kv) ("Item Name" :: ks) then ks
                                           else (ks ++ [snd kv])%list) l ks) as H.
  { induction l as [|kv l IH]; intros ks; [reflexivity|].
    cbn [fold_left]. destruct (in_keys (snd kv) ("Item Name" :: ks)); apply IH. }
  rewrite (H cm []). eauto.
Qed.

(** X3. The first header of a table that has one is "Item Name"; it is not
    numeric, so the loop leaves the first column as the flattener built it. *)
Theorem first_column_is_item_name (float_repr : Qc -> string)
    (requests_post : string -> result Response) (board_id : string) :
  let df := fst (fetch_and_clean float_repr requests_post board_id) in
  (pd.columns df = [] \/ nth_error (pd.columns df) 0 = Some "Item Name") /\
  is_numeric "Item Name" = false /\
  (forall b i, answers requests_post board_id b -> pd.columns df <> [] ->
               pd.cell df i 0 = pd.cell (flatten b) i 0).
Proof.
  intros df. subst df.
  assert (forall b df, clean float_repr (flatten b) = Ok df -> pd.columns df <> [] ->
                       nth_error (pd.columns df) 0 = Some "Item Name" /\
                       forall i, pd.cell df i 0 = pd.cell (flatten b) i 0) as Hkey.
  { intros b df [_ Hf]%clean_spec Hne.
    assert (b_items b <> []) as Hitems.
    { intros E. apply Hne. unfold pd.columns. rewrite Hf.
      unfold flatten, parsed_rows. now rewrite E. }
    pose proof (columns_flatten b Hitems) as Hc.
    destruct (row_keys_head (col_map b)) as [rest Hr]. rewrite Hr in Hc.
    unfold pd.columns in Hc |- *. unfold pd.cell. rewrite Hf.
    destruct (pd.frame (flatten b)) as [|[c s] fr]; [discriminate|].
    cbn [map fst] in Hc. injection Hc as -> _.
    cbn [map nth_error fst snd]. split; reflexivity. }
  split; [|split; [reflexivity|]].
  - destruct (fetch_cases float_repr requests_post board_id) as [->|[b E]]; [now left|].
    destruct (pd.columns (fst (fetch_and_clean float_repr requests_post board_id)))
      as [|c cs] eqn:Ec; [now left|right].
    rewrite <- Ec. apply (Hkey b _ E). congruence.
  - intros b i Hb. rewrite (fetch_answers float_repr requests_post board_id b Hb).
    destruct (clean float_repr (flatten b)) as [df|e] eqn:E; cbn [fst];
      [|intros H; now contradiction H].
    intros Hne. now apply (Hkey b df E Hne).
Qed.

Lemma first_column_is_item_name_witness :
  pd.cell (fst (fetch_and_clean no_repr sample_post "1")) 1 0
  = pd.cell (flatten sample_board) 1 0.
Proof.
  destruct (first_column_is_item_name no_repr sample_post "1") as (_ & _ & H).
  apply (H sample_board 1%nat).
  - exists [], {| json := Ok {| p_errors := None; p_data := Some [sample_board] |} |}.
    split; reflexivity.
  - vm_compute. discriminate.
Defined.


(** ** Repeated ids and repeated titles *)

Lemma find_app_first {A : Type} (f : A -> bool) (l1 l2 : list A) :
  List.find f (l1 ++ l2)
  = match List.find f l1 with
    | Some a => Some a
    | None => List.find f l2
    end.
Proof.
  induction l1 as [|a l1 IH]; [reflexivity|].
  cbn [app List.find]. now destruct (f a).
Qed.

Lemma nodup_snoc {A : Type} (l : list A) (a : A) :
  List.NoDup l -> ~ In a l -> List.NoDup (l ++ [a]).
Proof.
  induction l as [|b l IH]; intros Hl Ha; simpl.
  - constructor; [intros []|constructor].
  - apply List.NoDup_cons_iff in Hl as [Hb Hl]. constructor.
    + intros [H|[->|[]]]%in_app_or; [tauto|]. apply Ha. now left.
    + apply IH; [exact Hl|]. intros H. apply Ha. now right.
Qed.

Lemma item_vals_fold_last (l : list ColumnValue) :
  forall (m : gmap string value) (k : string),
    fold_left (fun m val => <[v_id val := text_value (v_text val)]> m) l m !! k
    = match List.find (fun val => String.eqb (v_id val) k) (rev l) with
      | Some val => Some (text_value (v_text val))
      | None => m !! k
      end.
Proof.
  induction l as [|cv l IH]; intros m k; [reflexivity|].
  cbn [fold_left rev]. rewrite IH, find_app_first.
  destruct (List.find _ (rev l)) as [val|]; [reflexivity|].
  cbn [List.find]. destruct (String.eqb (v_id cv) k) eqn:E.
  - apply String.eqb_eq in E as ->. now rewrite lookup_insert_eq.
  - apply String.eqb_neq in E. now rewrite lookup_insert_ne.
Qed.

(** X4. In the dictionary of line 72 an id an item carries several times
    keeps the text of its last occurrence, and an id the item does not carry
    is absent, so that its cell is the empty string. *)
Theorem item_vals_last_wins (item : Item) :
  (forall before cv after,
      i_column_values item = (before ++ cv :: after)%list ->
      ~ In (v_id cv) (map v_id after) ->
      item_vals item !! v_id cv = Some (text_value (v_text cv))) /\
  (forall k, item_vals item !! k = None <-> ~ In k (map v_id (i_column_values item))).
Proof.
  unfold item_vals. split.
  - intros before cv after -> Hlast. rewrite item_vals_fold_last.
    rewrite rev_app_distr. cbn [rev]. rewrite <- app_assoc, find_app_first.
    destruct (List.find _ (rev after)) as [val|] eqn:F.
    + apply find_some in F as [Hin E%String.eqb_eq]. destruct Hlast.
      rewrite <- E. apply in_map. now apply in_rev.
    + cbn [app List.find]. now rewrite String.eqb_refl.
  - intros k. rewrite item_vals_fold_last, lookup_empty. split.
    + destruct (List.find _ (rev (i_column_values item))) as [val|] eqn:F; [discriminate|].
      intros _ (cv & <- & Hin)%in_map_iff.
      apply in_rev in Hin. pose proof (find_none _ _ F cv Hin) as Hf.
      cbn beta in Hf. now rewrite String.eqb_refl in Hf.
    + intros H. destruct (List.find _ (rev (i_column_values item))) as [val|] eqn:F;
        [|reflexivity].
      apply find_some in F as [Hin E%String.eqb_eq]. destruct H.
      rewrite <- E. apply in_map. now apply in_rev.
Qed.

Lemma item_vals_last_wins_witness :
  item_vals {| i_name := "Alpha";
               i_column_values := [ {| v_id := "v"; v_text := Some "1" |};
                                    {| v_id := "v"; v_text := Some "2" |} ] |} !! "v"
  = Some (VStr "2").
Proof.
  destruct (item_vals_last_wins
              {| i_name := "Alpha";
                 i_column_values := [ {| v_id := "v"; v_text := Some "1" |};
                                      {| v_id := "v"; v_text := Some "2" |} ] |}) as [H _].
  apply (H [ {| v_id := "v"; v_text := Some "1" |} ] {| v_id := "v"; v_text := Some "2" |} []).
  - reflexivity.
  - intros [].
Defined.

Lemma get_set_eq {V : Type} (k : string) (v : V) (d : Dict.t V) :
  Dict.get k (Dict.set k v d) = Some v.
Proof.
  induction d as [|[k' v'] d IH]; simpl.
  - now rewrite String.eqb_refl.
  - destruct (String.eqb k' k) eqn:E; simpl; now rewrite E.
Qed.

Lemma get_set_ne {V : Type} (k k' : string) (v : V) (d : Dict.t V) :
  k <> k' -> Dict.get k' (Dict.set k v d) = Dict.get k' d.
Proof.
  intros Hne. induction d as [|[k0 v0] d IH]; simpl.
  - apply String.eqb_neq in Hne. now rewrite Hne.
  - destruct (String.eqb k0 k) eqn:E; simpl.
    + apply String.eqb_eq in E as ->. apply String.eqb_neq in Hne. now rewrite Hne.
    + now rewrite IH.
Qed.

Lemma nodup_keys_set {V : Type} (k : string) (v : V) (d : Dict.t V) :
  List.NoDup (Dict.keys d) -> List.NoDup (Dict.keys (Dict.set k v d)).
Proof.
  intros H. rewrite keys_set. destruct (in_keys k (Dict.keys d)) eqn:E; [exact H|].
  apply nodup_snoc; [exact H|].
  intros Hin. apply in_keys_In in Hin. congruence.
Qed.

Lemma row_data_fold (item : Item) (l : Dict.t string) :
  forall (d : Dict.t value) (t : string),
    ~ In t (map snd l) ->
    Dict.get t (fold_left (fun row kv =>
                             Dict.set (snd kv)
                                      (default (VStr "") (item_vals item !! fst kv)) row) l d)
    = Dict.get t d.
Proof.
  induction l as [|kv l IH]; intros d t Ht; [reflexivity|].
  cbn [fold_left]. simpl in Ht. rewrite IH by tauto.
  apply get_set_ne. tauto.
Qed.

(** X5. A row of lines 71-74 never has one key twice, and for a title that
    several descriptors carry it holds the cell of the last of them; the
    item's name is kept under "Item Name" only when no descriptor has that
    title. The flattened table therefore never has one header twice. *)
Theorem row_data_last_title_wins (cm : Dict.t string) (item : Item) :
  List.NoDup (Dict.keys (row_data cm item)) /\
  (forall before id title after,
      cm = (before ++ (id, title) :: after)%list ->
      ~ In title (map snd after) ->
      Dict.get title (row_data cm item)
      = Some (default (VStr "") (item_vals item !! id))) /\
  (~ In "Item Name" (map snd cm) ->
   Dict.get "Item Name" (row_data cm item) = Some (VStr (i_name item))) /\
  (forall b, b_items b <> [] -> List.NoDup (pd.columns (flatten b))).
Proof.
  assert (forall cm item, List.NoDup (Dict.keys (row_data cm item))) as Hnd.
  { clear. intros cm item. unfold row_data.
    assert (List.NoDup (Dict.keys [("Item Name", VStr (i_name item))])) as H0
        by (repeat constructor; intros []).
    revert H0. generalize [("Item Name", VStr (i_name item))].
    induction cm as [|kv cm IH]; intros d Hd; [exact Hd|].
    cbn [fold_left]. apply IH. now apply nodup_keys_set. }
  split; [apply Hnd|]. split; [|split].
  - intros before id title after -> Hlast. unfold row_data.
    rewrite fold_left_app. cbn [fold_left].
    rewrite row_data_fold by exact Hlast. cbn [fst snd]. apply get_set_eq.
  - intros H. unfold row_data. rewrite row_data_fold by exact H.
    reflexivity.
  - intros b Hb. rewrite columns_flatten by exact Hb.
    rewrite <- (keys_row_data (col_map b) {| i_name := ""; i_column_values := [] |}).
    apply Hnd.
Qed.

Lemma row_data_last_title_wins_witness :
  Dict.get "Item Name"
    (row_data [("a", "Item Name")]
       {| i_name := "Alpha";
          i_column_values := [ {| v_id := "a"; v_text := Some "Beta" |} ] |})
  = Some (default (VStr "")
            (item_vals {| i_name := "Alpha";
                          i_column_values := [ {| v_id := "a"; v_text := Some "Beta" |} ] |}
             !! "a")).
Proof.
  destruct (row_data_last_title_wins [("a", "Item Name")]
              {| i_name := "Alpha";
                 i_column_values := [ {| v_id := "a"; v_text := Some "Beta" |} ] |})
    as (_ & H & _).
  apply (H [] "a" "Item Name" []).
  - reflexivity.
  - intros [].
Defined.


(** ** What a money cell needs to be stored as more than 0 *)

Lemma points_app (s t : string) : points (s +:+ t) = (points s + points t)%nat.
Proof.
  induction s as [|c s IH]; [reflexivity|].
  change (String c s +:+ t) with (String c (s +:+ t)). cbn [points]. rewrite IH. lia.
Qed.

Lemma has_digit_app (s t : string) : has_digit (s +:+ t) = has_digit s || has_digit t.
Proof.
  induction s as [|c s IH]; [reflexivity|].
  change (String c s +:+ t) with (String c (s +:+ t)). cbn [has_digit].
  now rewrite IH, orb_assoc.
Qed.

Lemma digits_no_point (s : string) :
  Py.sall Py.is_digit s = true -> points s = 0%nat.
Proof.
  induction s as [|c s IH]; [reflexivity|]. simpl. intros [Hc Hs]%andb_prop.
  rewrite (IH Hs). destruct (Ascii.eqb c "."%char) eqn:E; [|reflexivity].
  apply Ascii.eqb_eq in E. subst c. discriminate Hc.
Qed.

Lemma digits_has_digit (s : string) :
  Py.sall Py.is_digit s = true -> is_empty s = false -> has_digit s = true.
Proof. destruct s as [|c s]; [discriminate|]. simpl. now intros [-> _]%andb_prop. Qed.

Lemma parse_float_shape (s : string) (x : Qc) :
  parse_float s = Some x -> has_digit s = true /\ (points s <= 1)%nat.
Proof.
  unfold parse_float. destruct (span_digits_spec s) as [Hs Hd].
  destruct (snd (span_digits s)) as [|c fp] eqn:E.
  - destruct (is_empty (fst (span_digits s))) eqn:Ee; [discriminate|]. intros _.
    rewrite Hs, has_digit_app, points_app, (digits_has_digit _ Hd Ee), (digits_no_point _ Hd).
    split; [reflexivity|simpl; lia].
  - destruct (Ascii.eqb c "."%char) eqn:Ec; [|discriminate].
    destruct (Py.sall Py.is_digit fp) eqn:Ef; [|discriminate].
    destruct (is_empty (fst (span_digits s)) && is_empty fp) eqn:Ee; [discriminate|].
    intros _. rewrite Hs, has_digit_app, points_app, (digits_no_point _ Hd).
    cbn [points has_digit]. rewrite Ec, (digits_no_point _ Ef). split; [|lia].
    apply andb_false_iff in Ee as [Ee|Ee].
    + now rewrite (digits_has_digit _ Hd Ee).
    + rewrite (digits_has_digit _ Ef Ee). now rewrite !orb_true_r.
Qed.

Lemma points_sub_non_digit (s : string) : points (Re.sub_non_digit s) = points s.
Proof.
  unfold Re.sub_non_digit. induction s as [|c s IH]; [reflexivity|].
  cbn [Py.sfilter points]. destruct (Ascii.eqb c "."%char) eqn:E.
  - rewrite orb_true_r. cbn [points]. now rewrite E, IH.
  - rewrite orb_false_r. destruct (Py.is_digit c); [cbn [points]; rewrite E|]; now rewrite IH.
Qed.

Lemma has_digit_sub_non_digit (s : string) :
  has_digit (Re.sub_non_digit s) = has_digit s.
Proof.
  unfold Re.sub_non_digit. induction s as [|c s IH]; [reflexivity|].
  cbn [Py.sfilter has_digit]. destruct (Py.is_digit c) eqn:E.
  - cbn [orb has_digit]. now rewrite E.
  - cbn [orb]. destruct (Ascii.eqb c "."%char); [cbn [has_digit]; rewrite E|]; exact IH.
Qed.

(** X6. A money cell is stored as 0 unless its text holds a digit and at most
    one point: a text with two points (a date, a version, an address) or with
    no digit is stored as 0, whatever else it holds. *)
Theorem stored_float_needs_one_numeral (text : string) :
  stored_float text <> 0%Qc -> has_digit text = true /\ (points text <= 1)%nat.
Proof.
  unfold stored_float. destruct (parse_float (Re.sub_non_digit text)) as [x|] eqn:E;
    [|congruence].
  intros _. apply parse_float_shape in E.
  now rewrite has_digit_sub_non_digit, points_sub_non_digit in E.
Qed.

Lemma stored_float_needs_one_numeral_witness :
  has_digit "$1,200.50" = true /\ (points "$1,200.50" <= 1)%nat.
Proof.
  apply stored_float_needs_one_numeral.
  rewrite stored_float_dollars. intros H. apply (f_equal this) in H.
  vm_compute in H. discriminate H.
Defined.

(** ** Snippets without a fence *)

Lemma scan_plain_all (s : string) :
  forall bol, plain s -> Re.sub_fence_from bol 0 false s = s.
Proof.
  induction s as [|c s IH]; intros bol Hs; [reflexivity|].
  apply plain_cons in Hs as [Hc Hs].
  rewrite scan_copy by exact Hc. now rewrite IH.
Qed.

(** X7. A completion that holds no backtick is run as it is, trimmed: the
    substitution of line 126 changes nothing in it. *)
Theorem clean_code_plain (content : string) :
  plain content -> clean_code content = Py.strip content.
Proof.
  intros H. unfold clean_code, raw_code, Re.sub_fence.
  rewrite scan_plain_all by (now apply sall_strip).
  apply strip_strip.
Qed.

Lemma clean_code_plain_witness :
  clean_code "  result = deals_df['Value'].sum() " = Py.strip "  result = deals_df['Value'].sum() ".
Proof. apply clean_code_plain. reflexivity. Defined.


(** ** Configuration and the runs of the script *)

Lemma py_not_false (x : option string) :
  py_not x = false <-> exists s, x = Some s /\ s <> EmptyString.
Proof.
  destruct x as [[|c s]|]; simpl; split; try discriminate.
  - intros (s & [= <-] & H). congruence.
  - intros _. eexists. split; [reflexivity|discriminate].
  - reflexivity.
  - intros (s & H & _). discriminate.
Qed.

(** X8. The script stops at line 29, with the one error message and the
    state of the app untouched, exactly when MONDAY_TOKEN or GROQ_API_KEY
    resolves to nothing or to the empty text; the board ids are not looked
    at. A secret that is present in [st.secrets] with the empty text hides
    the environment variable of the same name. *)
Theorem startup_gate (w : World) (i : Inputs) (a : App) :
  let cfg := load_config (secrets i) (environ i) in
  (secrets_missing cfg = false <->
   exists token key,
     get_secret (secrets i) (environ i) "MONDAY_TOKEN" = Some token /\
     token <> EmptyString /\
     get_secret (secrets i) (environ i) "GROQ_API_KEY" = Some key /\
     key <> EmptyString) /\
  (secrets_missing cfg = true -> script w i a = (a, [st_error critical_error], Stopped)) /\
  (secrets_missing cfg = false -> snd (script w i a) <> Stopped) /\
  (secrets i !! "MONDAY_TOKEN" = Some EmptyString \/
   secrets i !! "GROQ_API_KEY" = Some EmptyString ->
   secrets_missing cfg = true).
Proof.
  intros cfg. split; [|split; [|split]].
  - unfold secrets_missing. rewrite orb_false_iff, !py_not_false. subst cfg. cbn.
    split.
    + intros [(t & Ht & Hne) (k & Hk & Hke)]. now exists t, k.
    + intros (t & k & Ht & Hne & Hk & Hke). split; eauto.
  - intros H. unfold script. fold cfg. now rewrite H.
  - intros H. unfold script. fold cfg. rewrite H.
    destruct (sync_clicked i); [destruct (sync w cfg a) as [a' m]|];
      unfold ask;
      repeat match goal with
             | |- context [match ?x !! ?k with _ => _ end] => destruct (x !! k)
             | |- context [if is_empty ?s then _ else _] => destruct (is_empty s)
             end; discriminate.
  - unfold secrets_missing. subst cfg. cbn. unfold get_secret.
    intros [-> | ->]; [reflexivity|]. apply orb_true_r.
Qed.

Lemma startup_gate_witness :
  script sample_world
    {| secrets := ∅; environ := ∅; sync_clicked := true; question := "" |} fresh_app
  = (fresh_app, [st_error critical_error], Stopped).
Proof.
  destruct (startup_gate sample_world
              {| secrets := ∅; environ := ∅; sync_clicked := true; question := "" |}
              fresh_app) as (_ & H & _).
  apply H. reflexivity.
Defined.

Lemma sync_spec (w : World) (cfg : Config) (a : App) :
  let deals := fetch_and_clean (float_repr w) (upstream w (clock a))
                               (percent_s (DEALS_BOARD_ID cfg)) in
  let same := bool_decide (DEALS_BOARD_ID cfg = WO_BOARD_ID cfg) in
  let wo := if same then deals
            else fetch_and_clean (float_repr w) (upstream w (S (clock a)))
                                 (percent_s (WO_BOARD_ID cfg)) in
  sync w cfg a
  = ({| clock := (if same then 1 else 2) + clock a;
        cache := if same then <[DEALS_BOARD_ID cfg := deals]> ∅
                 else <[WO_BOARD_ID cfg := wo]> (<[DEALS_BOARD_ID cfg := deals]> ∅);
        session_state := <["wo_df" := fst wo]>
                           (<["deals_df" := fst deals]> (session_state a)) |},
     (map st_error (snd deals) ++ map st_error (snd wo)
      ++ [st_success "Data Synced!"])%list).
Proof.
  intros deals same wo. unfold sync, cached_fetch_and_clean at 1.
  cbn [cache clock session_state]. rewrite lookup_empty.
  unfold cached_fetch_and_clean, set_session. cbn [cache clock session_state].
  subst same wo. destruct (bool_decide_reflect (DEALS_BOARD_ID cfg = WO_BOARD_ID cfg)) as [E|E].
  - rewrite <- E, lookup_insert_eq. reflexivity.
  - rewrite lookup_insert_ne by exact E. rewrite lookup_empty. reflexivity.
Qed.

(** X9. A run in which the button was clicked stores the two tables the
    upstream gives at that moment, whatever the cache and the session state
    held before: the deals table is cleaned from the next answer of the
    upstream and the work orders from the one after; when the two board ids
    are equal the upstream is asked once and the same table is stored twice.
    "Data Synced!" is shown also when a fetch failed. *)
Theorem sync_refetches (w : World) (i : Inputs) (a : App) :
  let cfg := load_config (secrets i) (environ i) in
  secrets_missing cfg = false -> sync_clicked i = true ->
  let a' := fst (fst (script w i a)) in
  let deals := fetch_and_clean (float_repr w) (upstream w (clock a))
                               (percent_s (DEALS_BOARD_ID cfg)) in
  let same := bool_decide (DEALS_BOARD_ID cfg = WO_BOARD_ID cfg) in
  session_state a' !! "deals_df" = Some (fst deals) /\
  session_state a' !! "wo_df"
  = Some (if same then fst deals
          else fst (fetch_and_clean (float_repr w) (upstream w (S (clock a)))
                                    (percent_s (WO_BOARD_ID cfg)))) /\
  clock a' = ((if same then 1 else 2) + clock a)%nat /\
  In (st_success "Data Synced!") (snd (fst (script w i a))).
Proof.
  intros cfg Hcfg Hclick a' deals same. subst a'. unfold script. fold cfg.
  rewrite Hcfg, Hclick, sync_spec. fold deals same.
  match goal with |- context [ask w i ?x] => destruct (ask w i x) as [asked end_] end.
  cbn [fst snd session_state clock]. split; [|split; [|split]].
  - rewrite lookup_insert_ne by discriminate. apply lookup_insert_eq.
  - rewrite lookup_insert_eq. now destruct same.
  - reflexivity.
  - rewrite <- !app_assoc. apply in_or_app. right. apply in_or_app. right.
    apply in_or_app. left. now left.
Qed.

Lemma sync_refetches_witness :
  session_state (fst (fst (script sample_world sync_click fresh_app))) !! "deals_df"
  = Some (fst (fetch_and_clean no_repr sample_post (percent_s (Some "1")))).
Proof.
  destruct (sync_refetches sample_world sync_click fresh_app) as [H _].
  - reflexivity.
  - reflexivity.
  - exact H.
Defined.

Lemma script_paired (w : World) (i : Inputs) (a : App) :
  paired a ->
  paired (fst (fst (script w i a))) /\ forall e, snd (script w i a) <> Uncaught e.
Proof.
  intros Hp. unfold script.
  destruct (secrets_missing _); [split; [exact Hp|discriminate]|].
  assert (forall b m, paired b ->
            paired b /\ forall e, snd (let '(asked, end_) := ask w i b in
                                       (b, (m ++ asked)%list, end_)) <> Uncaught e) as Hask.
  { intros b m Hb. split; [exact Hb|]. intros e. unfold ask.
    destruct (session_state b !! "deals_df") as [d|] eqn:Ed; [|discriminate].
    destruct (is_empty (question i)); [discriminate|].
    destruct (Hb (ex_intro _ d Ed)) as [x ->]. discriminate. }
  destruct (sync_clicked i).
  - rewrite sync_spec.
    match goal with |- context [ask w i ?x] => specialize (Hask x) end.
    match type of Hask with forall m, paired ?x -> _ =>
      assert (paired x) as Hx
          by (intros _; unfold paired; cbn [session_state]; rewrite lookup_insert_eq; eauto)
    end.
    match goal with |- context [(?m ++ _)%list] => specialize (Hask m Hx) end.
    destruct Hask as [H1 H2]. split.
    + destruct (ask w i _). exact H1.
    + intros e. specialize (H2 e). destruct (ask w i _). exact H2.
  - specialize (Hask a [] Hp). destruct Hask as [H1 H2]. split.
    + destruct (ask w i a). exact H1.
    + intros e. specialize (H2 e). destruct (ask w i a). exact H2.
Qed.

(** X10. Line 159 tests for "deals_df" only, and line 163 reads "wo_df" as
    well. Along any sequence of complete runs that starts with a session
    state holding the work orders whenever it holds the deals (an empty one,
    for instance), the session state stays so, and no run ends on the
    KeyError of line 163: it always finds the two tables it reads. *)
Theorem session_tables_paired (w : World) (runs : list Inputs) (a : App) :
  paired a ->
  paired (fst (session w runs a)) /\
  Forall (fun o => forall e, o <> Uncaught e) (snd (session w runs a)).
Proof.
  revert a. induction runs as [|i runs IH]; intros a Hp.
  - split; [exact Hp|constructor].
  - cbn [session]. destruct (script_paired w i a Hp) as [H1 H2].
    destruct (script w i a) as [[a' m] o]. cbn [fst snd] in H1, H2.
    destruct (IH a' H1) as [H3 H4]. destruct (session w runs a') as [a'' os].
    cbn [fst snd] in *. split; [exact H3|]. constructor; assumption.
Qed.

Lemma session_tables_paired_witness :
  paired (fst (session sample_world [sync_click; sync_click] fresh_app)) /\
  Forall (fun o => forall e, o <> Uncaught e)
         (snd (session sample_world [sync_click; sync_click] fresh_app)).
Proof.
  apply session_tables_paired. intros [x H]. vm_compute in H. discriminate H.
Defined.
